(** * serverless-plugin-datadog: the orchestration core of [src/index.ts]

    A shallow embedding of the [ServerlessPlugin] class: its hook table, its
    two phase entry points [beforePackageFunction] and [afterPackageFunction],
    and the private methods [debugLogHandlers], [addServiceAndEnvTags] and
    [getHandlers].

    The class mutates one [Serverless] object and talks to the command line
    through [serverless.cli.log]; both are threaded through a small state and
    exception monad.  Every call the class makes to a module it imports
    ([./env], [./layer], [./tracing], [./wrapper], [./util], [./forwarder])
    is recorded, in program order, in a ghost trace, next to the lines that
    were logged. *)

From stdpp Require Import gmap strings list fin_maps.

Open Scope string_scope.
Open Scope list_scope.

(** ** Data model *)

(** Modelled from the spec: the [RuntimeType] enumeration of [./layer], which
    [index.ts] imports.  [index.ts] names [NODE], [NODE_ES6], [NODE_TS] and
    [UNSUPPORTED]; [PYTHON] stands for the supported families that are not
    Node. *)
Inductive RuntimeType := NODE | NODE_TS | NODE_ES6 | PYTHON | UNSUPPORTED.

(** Modelled from the spec: the [TracingMode] enumeration of
    [./templates/common]; [index.ts] names the four members. *)
Inductive TracingMode := XRAY | DD_TRACE | HYBRID | NONE.

#[global] Instance RuntimeType_eq_dec : EqDecision RuntimeType.
Proof. solve_decision. Defined.

#[global] Instance TracingMode_eq_dec : EqDecision TracingMode.
Proof. solve_decision. Defined.

(** [interface ExtendedFunctionDefinition extends FunctionDefinition]: the
    fields of a function definition the plugin reads or writes.  An optional
    field is an [option]; a string-keyed object is a [gmap]. *)
Record ExtendedFunctionDefinition := mkFunctionDefinition {
  handler : string;
  runtime : option string;
  tags : option (gmap string string);
  environment : option (gmap string string);
}.

(** The object after the assignment [functionDefintion.tags = t]. *)
Definition set_tags (t : gmap string string) (fd : ExtendedFunctionDefinition)
  : ExtendedFunctionDefinition :=
  {| handler := handler fd; runtime := runtime fd;
     tags := Some t; environment := environment fd |}.

(** [enum TagKeys { Service = "service", Env = "env" }] *)
Module TagKeys.
Definition Service : string := "service".
Definition Env : string := "env".
End TagKeys.

(** Modelled from the spec: the [FunctionInfo] projection of [./layer].
    [index.ts] reads [name], [type] and [runtime]; [handler] is the function
    definition the entry was computed from. *)
Module FunctionInfo.
Record t := mk {
  name : string;
  type : RuntimeType;
  runtime : option string;
  handler : ExtendedFunctionDefinition;
}.
End FunctionInfo.

(** Modelled from the spec: the resolved configuration [getConfig] of [./env]
    returns, with the fields [index.ts] reads.  [nodeModuleType] is
    ["es6" | "node" | "typescript" | undefined]; it is kept as the string it
    is at run time. *)
Record Configuration := mkConfiguration {
  addLayers : bool;
  enableXrayTracing : bool;
  enableDDTracing : bool;
  enableTags : bool;
  forwarder : option string;
  nodeModuleType : option string;
}.

(** [serverless.service.provider] *)
Record Provider := mkProvider {
  region : string;
  provider_runtime : option string;
}.

(** [serverless.service]: the manifest.  [functions] is the object whose keys
    [getAllFunctions()] lists and [getFunction(name)] indexes. *)
Record Service := mkService {
  serviceName : string;
  provider : Provider;
  plugins : list string;
  functions : gmap string ExtendedFunctionDefinition;
}.

Definition set_functions (fs : gmap string ExtendedFunctionDefinition) (s : Service)
  : Service :=
  {| serviceName := serviceName s; provider := provider s;
     plugins := plugins s; functions := fs |}.

(** What the plugin does that an observer can see: a line given to
    [serverless.cli.log], or a call into an imported module with the
    arguments [index.ts] computed for it. *)
Inductive Event :=
| Log (line : string)
| GetConfig
| SetEnvConfiguration (config : Configuration)
| FindHandlers (defaultRuntime : option string) (defaultNodeRuntime : option RuntimeType)
| ApplyLayers (rgn : string) (handlers : list FunctionInfo.t)
| ForceExcludeDepsFromWebpack
| EnableTracing (tracingMode : TracingMode)
| AddCloudWatchForwarderSubscriptions (arn : string)
| AddServiceAndEnvTags
| RedirectHandlers (handlers : list FunctionInfo.t) (withLayers : bool).

(** The [Serverless] instance the plugin holds: the service, the stage the
    ["aws"] provider answers to [getStage()], and the trace. *)
Record Serverless := mkServerless {
  service : Service;
  stage : string;
  trace : list Event;
}.

Definition set_service (s : Service) (w : Serverless) : Serverless :=
  {| service := s; stage := stage w; trace := trace w |}.

Definition record (e : Event) (w : Serverless) : Serverless :=
  {| service := service w; stage := stage w; trace := trace w ++ [e] |}.

(** The lines [serverless.cli.log] received, oldest first. *)
Fixpoint logged (tr : list Event) : list string :=
  match tr with
  | [] => []
  | Log line :: tr => line :: logged tr
  | _ :: tr => logged tr
  end.

(** ** The monad: state passing, with [throw] *)

Inductive Outcome (A : Type) :=
| Returned (a : A) (w : Serverless)
| Thrown (error : string).
Arguments Returned {A} a w.
Arguments Thrown {A} error.

Definition M (A : Type) : Type := Serverless → Outcome A.

#[global] Instance M_ret : MRet M := λ A a w, Returned a w.

#[global] Instance M_bind : MBind M := λ A B k m w,
  match m w with
  | Returned a w' => k a w'
  | Thrown e => Thrown e
  end.

Definition throw {A} (e : string) : M A := λ _, Thrown e.
Definition get : M Serverless := λ w, Returned w w.
Definition modify (f : Serverless → Serverless) : M unit := λ w, Returned tt (f w).

Definition emit (e : Event) : M unit := modify (record e).
Definition cli_log (line : string) : M unit := emit (Log line).
Definition update_service (f : Service → Service) : M unit :=
  modify (λ w, set_service (f (service w)) w).

(** [for (const x of xs) body] and [xs.forEach(body)] *)
Fixpoint forEach {A} (xs : list A) (body : A → M unit) : M unit :=
  match xs with
  | [] => mret tt
  | x :: xs => body x;; forEach xs body
  end.

(** JavaScript truthiness of a [string | undefined]: [undefined] and the empty
    string are falsy. *)
Definition truthy (v : option string) : bool :=
  match v with
  | Some s => negb (String.eqb s "")
  | None => false
  end.

(** ** The imported modules

    [index.ts] imports these functions from modules of the repository; each
    is taken as given, and as returning.  One that mutates the service in
    place returns the service it leaves behind;
    [addCloudWatchForwarderSubscriptions] also resolves to the error strings
    it collected.  Two arguments that never vary are left out: the
    [layers.json] table given to [applyLayers] and the ["aws"] provider given
    to [addCloudWatchForwarderSubscriptions]. *)
Class Imports := {
  getConfig : Service → Configuration;
  setEnvConfiguration : Configuration → Service → Service;
  findHandlers : Service → option string → option RuntimeType → list FunctionInfo.t;
  applyLayers : string → list FunctionInfo.t → Service → Service;
  hasWebpackPlugin : Service → bool;
  forceExcludeDepsFromWebpack : Service → Service;
  enableTracing : Service → TracingMode → Service;
  addCloudWatchForwarderSubscriptions : Service → string → Service * list string;
  redirectHandlers : Service → list FunctionInfo.t → bool → Service;
}.

(** ** The hook table (lines 33-44)

    Every value of [hooks] is one of the two methods, bound to [this]; the
    table is kept as the object literal lists it, key by key. *)
Inductive PhaseEntry := beforePackage | afterPackage.

#[global] Instance PhaseEntry_eq_dec : EqDecision PhaseEntry.
Proof. solve_decision. Defined.

Definition hooks : list (string * PhaseEntry) :=
  [ ("after:datadog:clean:init", afterPackage);
    ("after:datadog:generate:init", beforePackage);
    ("after:deploy:function:packageFunction", afterPackage);
    ("after:invoke:local:invoke", afterPackage);
    ("after:package:createDeploymentArtifacts", afterPackage);
    ("after:package:initialize", beforePackage);
    ("before:deploy:function:packageFunction", beforePackage);
    ("before:invoke:local:invoke", beforePackage);
    ("before:offline:start:init", beforePackage);
    ("before:step-functions-offline:start", beforePackage) ].

(** [hooks[event]] *)
Fixpoint hook_of (table : list (string * PhaseEntry)) (event : string)
  : option PhaseEntry :=
  match table with
  | [] => None
  | (key, entry) :: table =>
      if String.eqb key event then Some entry else hook_of table event
  end.

(** ** Service accessors of the host framework *)

(** [service.getAllFunctions()]: the keys of [functions]. *)
Definition getAllFunctions (s : Service) : list string :=
  (map_to_list (functions s)).*1.

(** [service.getFunction(name)]: the definition stored under [name]; the
    framework throws when there is none. *)
Definition getFunction (functionName : string) : M ExtendedFunctionDefinition :=
  w ← get;
  match functions (service w) !! functionName with
  | Some functionDefinition => mret functionDefinition
  | None => throw ("Function " +:+ functionName +:+ " doesn't exist in this Service")
  end.

(** [getHandlers], lines 146-157: the [switch] over [nodeModuleType].  No
    [case] matches any other string, nor [undefined]. *)
Definition defaultNodeRuntime (nodeModuleType : option string) : option RuntimeType :=
  match nodeModuleType with
  | Some hint =>
      if String.eqb hint "es6" then Some NODE_ES6
      else if String.eqb hint "typescript" then Some NODE_TS
      else if String.eqb hint "node" then Some NODE
      else None
  | None => None
  end.

(** [beforePackageFunction], lines 81-88: the tracing mode. *)
Definition tracingMode (config : Configuration) : TracingMode :=
  if enableXrayTracing config && enableDDTracing config then HYBRID
  else if enableDDTracing config then DD_TRACE
  else if enableXrayTracing config then XRAY
  else NONE.

(** [addServiceAndEnvTags], lines 128-140: what the body of the loop leaves in
    [functionDefintion.tags]. *)
Definition ensureTag (key value : string) (t : gmap string string)
  : gmap string string :=
  if truthy (t !! key) then t else <[key := value]> t.

Definition taggedFunction (service_name stage_name : string)
    (functionDefintion : ExtendedFunctionDefinition) : ExtendedFunctionDefinition :=
  let tags0 := match tags functionDefintion with Some t => t | None => ∅ end in
  let tags1 := ensureTag TagKeys.Service service_name tags0 in
  let tags2 := ensureTag TagKeys.Env stage_name tags1 in
  set_tags tags2 functionDefintion.

Section ServerlessPlugin.
Context `{!Imports}.

(** [getHandlers], lines 144-159 *)
Definition getHandlers (nodeModuleType : option string) : M (list FunctionInfo.t) :=
  w ← get;
  let defaultRuntime := provider_runtime (provider (service w)) in
  emit (FindHandlers defaultRuntime (defaultNodeRuntime nodeModuleType));;
  mret (findHandlers (service w) defaultRuntime (defaultNodeRuntime nodeModuleType)).

(** [debugLogHandlers], lines 110-122 *)
Definition debugLogHandlers (handlers : list FunctionInfo.t) : M unit :=
  forEach handlers (λ handler,
    if decide (FunctionInfo.type handler = UNSUPPORTED) then
      match FunctionInfo.runtime handler with
      | None =>
          cli_log ("Unable to determine runtime for function "
                   +:+ FunctionInfo.name handler)
      | Some rt =>
          cli_log ("Unable to add Lambda Layers to function "
                   +:+ FunctionInfo.name handler +:+ " with runtime " +:+ rt)
      end
    else mret tt).

(** [addServiceAndEnvTags], lines 124-142.  [functionDefintion] is the
    object stored in the service, so the assignments to it and to its
    [tags] are writes to [functions[functionName]]. *)
Definition addServiceAndEnvTags : M unit :=
  emit AddServiceAndEnvTags;;
  w ← get;
  forEach (getAllFunctions (service w)) (λ functionName,
    functionDefintion ← getFunction functionName;
    w ← get;
    update_service (λ s,
      set_functions
        (<[functionName :=
             taggedFunction (serviceName (service w)) (stage w) functionDefintion]>
           (functions s)) s)).

(** [beforePackageFunction], lines 70-79: the layer pass. *)
Definition attachLayers (config : Configuration) (handlers : list FunctionInfo.t)
  : M unit :=
  if addLayers config then
    cli_log "Adding Lambda Layers to functions";;
    debugLogHandlers handlers;;
    w ← get;
    emit (ApplyLayers (region (provider (service w))) handlers);;
    update_service (applyLayers (region (provider (service w))) handlers);;
    w ← get;
    if hasWebpackPlugin (service w) then
      emit ForceExcludeDepsFromWebpack;;
      update_service forceExcludeDepsFromWebpack
    else mret tt
  else
    cli_log "Skipping adding Lambda Layers, make sure you are packaging them yourself".

(** [beforePackageFunction], lines 81-89: the tracing pass. *)
Definition injectTracing (config : Configuration) : M unit :=
  emit (EnableTracing (tracingMode config));;
  update_service (λ s, enableTracing s (tracingMode config)).

(** [getConfig(this.serverless.service)] *)
Definition readConfig : M Configuration :=
  emit GetConfig;;
  w ← get;
  mret (getConfig (service w)).

(** [beforePackageFunction], lines 64-90 *)
Definition beforePackageFunction : M unit :=
  cli_log "Auto instrumenting functions with Datadog";;
  config ← readConfig;
  emit (SetEnvConfiguration config);;
  update_service (setEnvConfiguration config);;
  handlers ← getHandlers (nodeModuleType config);
  attachLayers config handlers;;
  injectTracing config.

(** [afterPackageFunction], lines 93-99: the forwarder pass.  The test
    [if (config.forwarder)] fails for [undefined] and for the empty
    string. *)
Definition subscribeForwarder (config : Configuration) : M unit :=
  match forwarder config with
  | Some arn =>
      if truthy (Some arn) then
        emit (AddCloudWatchForwarderSubscriptions arn);;
        w ← get;
        let result := addCloudWatchForwarderSubscriptions (service w) arn in
        update_service (λ _, result.1);;
        forEach result.2 cli_log
      else mret tt
  | None => mret tt
  end.

(** [afterPackageFunction], lines 101-104: the tag pass. *)
Definition injectTags (config : Configuration) : M unit :=
  if enableTags config then
    cli_log "Adding service and environment tags to functions";;
    addServiceAndEnvTags
  else mret tt.

(** [afterPackageFunction], lines 106-107: handler redirection. *)
Definition redirect (config : Configuration) : M unit :=
  handlers ← getHandlers (nodeModuleType config);
  emit (RedirectHandlers handlers (addLayers config));;
  update_service (λ s, redirectHandlers s handlers (addLayers config)).

(** [afterPackageFunction], lines 91-108 *)
Definition afterPackageFunction : M unit :=
  config ← readConfig;
  subscribeForwarder config;;
  injectTags config;;
  redirect config.

(** The method a table entry is bound to. *)
Definition entryPoint (entry : PhaseEntry) : M unit :=
  match entry with
  | beforePackage => beforePackageFunction
  | afterPackage => afterPackageFunction
  end.

(** The host fires [event]: it calls [hooks[event]] when the plugin
    registered one. *)
Definition runHook (event : string) : M unit :=
  match hook_of hooks event with
  | Some entry => entryPoint entry
  | None => mret tt
  end.

End ServerlessPlugin.

(** * What each pass leaves behind

    For every pass of the two phases: the service it leaves and the events it
    adds to the trace, as functions of the service it starts from.  The
    lemmas of the second half show that the monadic programs above compute
    exactly these. *)

(** The instance after [events] were appended to its trace. *)
Definition extend (events : list Event) (w : Serverless) : Serverless :=
  {| service := service w; stage := stage w; trace := trace w ++ events |}.

(** The instance after every function definition was replaced by its tagged
    version. *)
Definition withTaggedFunctions (w : Serverless) : Serverless :=
  set_service
    (set_functions
       (taggedFunction (serviceName (service w)) (stage w) <$> functions (service w))
       (service w))
    w.

(** The line [debugLogHandlers] logs for one entry, if any. *)
Definition diagnostic (handler : FunctionInfo.t) : option string :=
  match FunctionInfo.type handler, FunctionInfo.runtime handler with
  | UNSUPPORTED, None =>
      Some ("Unable to determine runtime for function " +:+ FunctionInfo.name handler)
  | UNSUPPORTED, Some rt =>
      Some ("Unable to add Lambda Layers to function " +:+ FunctionInfo.name handler
            +:+ " with runtime " +:+ rt)
  | _, _ => None
  end.

Definition diagnostics (handlers : list FunctionInfo.t) : list string :=
  omap diagnostic handlers.

(** [key] needs no write: its value is truthy, or is already [value]. *)
Definition settled (key value : string) (t : gmap string string) : Prop :=
  truthy (t !! key) = true ∨ t !! key = Some value.

(** In [tr], an occurrence of [e1] comes before an occurrence of [e2]. *)
Definition precedes (e1 e2 : Event) (tr : list Event) : Prop :=
  ∃ before between after, tr = before ++ e1 :: between ++ e2 :: after.

Section PassResults.
Context `{!Imports}.

Definition handlersOf (nodeModuleType : option string) (s : Service)
  : list FunctionInfo.t :=
  findHandlers s (provider_runtime (provider s)) (defaultNodeRuntime nodeModuleType).

Definition FindHandlersOf (nodeModuleType : option string) (s : Service) : Event :=
  FindHandlers (provider_runtime (provider s)) (defaultNodeRuntime nodeModuleType).

Definition layerService (config : Configuration) (handlers : list FunctionInfo.t)
    (s : Service) : Service :=
  if addLayers config then
    let s' := applyLayers (region (provider s)) handlers s in
    if hasWebpackPlugin s' then forceExcludeDepsFromWebpack s' else s'
  else s.

Definition layerEvents (config : Configuration) (handlers : list FunctionInfo.t)
    (s : Service) : list Event :=
  if addLayers config then
    Log "Adding Lambda Layers to functions"
      :: (Log <$> diagnostics handlers)
      ++ ApplyLayers (region (provider s)) handlers
      :: (if hasWebpackPlugin (applyLayers (region (provider s)) handlers s)
          then [ForceExcludeDepsFromWebpack] else [])
  else
    [Log "Skipping adding Lambda Layers, make sure you are packaging them yourself"].

Definition forwarderService (config : Configuration) (s : Service) : Service :=
  match forwarder config with
  | Some arn =>
      if truthy (Some arn) then (addCloudWatchForwarderSubscriptions s arn).1 else s
  | None => s
  end.

Definition forwarderEvents (config : Configuration) (s : Service) : list Event :=
  match forwarder config with
  | Some arn =>
      if truthy (Some arn) then
        AddCloudWatchForwarderSubscriptions arn
          :: (Log <$> (addCloudWatchForwarderSubscriptions s arn).2)
      else []
  | None => []
  end.

Definition tagService (config : Configuration) (stage_name : string) (s : Service)
  : Service :=
  if enableTags config then
    set_functions (taggedFunction (serviceName s) stage_name <$> functions s) s
  else s.

Definition tagEvents (config : Configuration) : list Event :=
  if enableTags config then
    [Log "Adding service and environment tags to functions"; AddServiceAndEnvTags]
  else [].

Definition redirectEvents (config : Configuration) (s : Service) : list Event :=
  [FindHandlersOf (nodeModuleType config) s;
   RedirectHandlers (handlersOf (nodeModuleType config) s) (addLayers config)].

(** The service [beforePackageFunction] hands to the layer pass. *)
Definition configured (s : Service) : Service :=
  setEnvConfiguration (getConfig s) s.

(** The events of [beforePackageFunction] that come before the layer pass. *)
Definition setupEvents (s : Service) : list Event :=
  [Log "Auto instrumenting functions with Datadog"; GetConfig;
   SetEnvConfiguration (getConfig s);
   FindHandlersOf (nodeModuleType (getConfig s)) (configured s)].

(** The service the tag pass of [afterPackageFunction] leaves. *)
Definition subscribedAndTagged (w : Serverless) : Service :=
  tagService (getConfig (service w)) (stage w)
             (forwarderService (getConfig (service w)) (service w)).

End PassResults.

(** * The runtime classifier *)

(** Modelled from the spec: the runtime a function is classified by, its
    declared runtime string or, if absent, the service-wide default (§4.1);
    [findHandlers] of [./layer] is not among the sources. *)
Definition effectiveRuntime (fd : ExtendedFunctionDefinition)
    (defaultRuntime : option string) : option string :=
  match runtime fd with
  | Some rt => Some rt
  | None => defaultRuntime
  end.

(** Modelled from the spec: the classification of §4.1, missing with
    [./layer].  [known] is the table of recognised runtime strings; a
    Node-family runtime takes the module-type hint when there is one; an
    absent or unrecognised runtime string is [UNSUPPORTED]. *)
Definition classify (known : string → option RuntimeType) (rt : option string)
    (hint : option RuntimeType) : RuntimeType :=
  match rt with
  | Some r =>
      match known r with
      | Some NODE => default NODE hint
      | Some family => family
      | None => UNSUPPORTED
      end
  | None => UNSUPPORTED
  end.

(** Modelled from the spec: [findHandlers] of [./layer], one [FunctionInfo]
    per function of the service, keeping the runtime string it classified. *)
Definition classifier (known : string → option RuntimeType) (s : Service)
    (defaultRuntime : option string) (hint : option RuntimeType)
  : list FunctionInfo.t :=
  (λ entry : string * ExtendedFunctionDefinition,
     FunctionInfo.mk entry.1
       (classify known (effectiveRuntime entry.2 defaultRuntime) hint)
       (effectiveRuntime entry.2 defaultRuntime)
       entry.2)
  <$> map_to_list (functions s).

(** * A sample service *)

Module Sample.

Definition hello : ExtendedFunctionDefinition :=
  {| handler := "handler.hello"; runtime := Some "nodejs18.x";
     tags := Some {[ "service" := "custom" ]}; environment := None |}.

Definition legacy : ExtendedFunctionDefinition :=
  {| handler := "bin/main"; runtime := Some "go1.x";
     tags := None; environment := None |}.

Definition blank : ExtendedFunctionDefinition :=
  {| handler := "handler.blank"; runtime := None;
     tags := Some {[ "service" := "" ]}; environment := None |}.

Definition manifest : Service :=
  {| serviceName := "shop";
     provider := {| region := "us-east-1"; provider_runtime := None |};
     plugins := ["serverless-webpack"; "serverless-plugin-datadog"];
     functions := <["hello" := hello]> (<["legacy" := legacy]> {[ "blank" := blank ]}) |}.

Definition instance : Serverless :=
  {| service := manifest; stage := "dev"; trace := [] |}.

Definition known (rt : string) : option RuntimeType :=
  if String.eqb rt "nodejs18.x" then Some NODE
  else if String.eqb rt "python3.9" then Some PYTHON
  else None.

(** Layers on, vendor tracing on, X-Ray off, tags off, no forwarder. *)
Definition defaults : Configuration :=
  {| addLayers := true; enableXrayTracing := false; enableDDTracing := true;
     enableTags := false; forwarder := None; nodeModuleType := None |}.

Definition withoutLayers : Configuration :=
  {| addLayers := false; enableXrayTracing := false; enableDDTracing := true;
     enableTags := false; forwarder := None; nodeModuleType := None |}.

Definition everything : Configuration :=
  {| addLayers := true; enableXrayTracing := true; enableDDTracing := true;
     enableTags := true; forwarder := Some "arn:aws:lambda:us-east-1:1:function:fwd";
     nodeModuleType := Some "typescript" |}.

(** Imported modules that answer [config], classify with [known], report
    one forwarder error, and leave the service as it is. *)
Definition imports (config : Configuration) : Imports :=
  {| getConfig := λ _, config;
     setEnvConfiguration := λ _ s, s;
     findHandlers := classifier known;
     applyLayers := λ _ _ s, s;
     hasWebpackPlugin := λ s, bool_decide ("serverless-webpack" ∈ plugins s);
     forceExcludeDepsFromWebpack := λ s, s;
     enableTracing := λ s _, s;
     addCloudWatchForwarderSubscriptions :=
       λ s _, (s, ["Could not subscribe legacy: log group not found"]);
     redirectHandlers := λ s _ _, s |}.

End Sample.

(** * Counting calls *)

(** The callee of an event: [serverless.cli.log], or the function of an
    imported module (or the private method) that was entered. *)
Inductive Callee :=
| cliLog | callGetConfig | callSetEnvConfiguration | callFindHandlers
| callApplyLayers | callForceExcludeDepsFromWebpack | callEnableTracing
| callAddCloudWatchForwarderSubscriptions | callAddServiceAndEnvTags
| callRedirectHandlers.

#[global] Instance Callee_eq_dec : EqDecision Callee.
Proof. solve_decision. Defined.

Definition callee (e : Event) : Callee :=
  match e with
  | Log _ => cliLog
  | GetConfig => callGetConfig
  | SetEnvConfiguration _ => callSetEnvConfiguration
  | FindHandlers _ _ => callFindHandlers
  | ApplyLayers _ _ => callApplyLayers
  | ForceExcludeDepsFromWebpack => callForceExcludeDepsFromWebpack
  | EnableTracing _ => callEnableTracing
  | AddCloudWatchForwarderSubscriptions _ => callAddCloudWatchForwarderSubscriptions
  | AddServiceAndEnvTags => callAddServiceAndEnvTags
  | RedirectHandlers _ _ => callRedirectHandlers
  end.

(** How many times [c] was entered in [tr]. *)
Definition occurrences (c : Callee) (tr : list Event) : nat :=
  length (filter (λ e, callee e = c) tr).

(** The entries of a handler list that are classified [UNSUPPORTED]. *)
Definition unsupported (handlers : list FunctionInfo.t) : list FunctionInfo.t :=
  filter (λ h, FunctionInfo.type h = UNSUPPORTED) handlers.

(** * Running the monad *)

Lemma extend_nil w : extend [] w = w.
Proof. destruct w; unfold extend; simpl. by rewrite app_nil_r. Qed.

Lemma extend_extend evs1 evs2 w :
  extend evs2 (extend evs1 w) = extend (evs1 ++ evs2) w.
Proof. unfold extend; simpl. by rewrite app_assoc. Qed.

Lemma set_functions_id s : set_functions (functions s) s = s.
Proof. by destruct s. Qed.

Lemma set_service_id w : set_service (service w) w = w.
Proof. by destruct w. Qed.

Lemma run_bind {A B} (m : M A) (k : A → M B) w :
  (m ≫= k) w
  = match m w with Returned a w' => k a w' | Thrown e => Thrown e end.
Proof. reflexivity. Qed.

Lemma run_ret {A} (a : A) w : mret (M:=M) a w = Returned a w.
Proof. reflexivity. Qed.

Lemma run_get w : get w = Returned w w.
Proof. reflexivity. Qed.

Lemma run_emit e w : emit e w = Returned tt (extend [e] w).
Proof. reflexivity. Qed.

Lemma run_cli_log line w : cli_log line w = Returned tt (extend [Log line] w).
Proof. reflexivity. Qed.

Lemma run_update_service f w :
  update_service f w = Returned tt (set_service (f (service w)) w).
Proof. reflexivity. Qed.

(** One step of symbolic execution of a monadic program. *)
Ltac mstep :=
  first [ rewrite run_bind | rewrite run_ret | rewrite run_get
        | rewrite run_emit | rewrite run_cli_log | rewrite run_update_service ];
  cbn beta iota.
Ltac mrun := repeat mstep.

(** Two instances built from the same fields are equal once their traces are
    re-associated. *)
Ltac same_instance w :=
  destruct w; unfold extend, set_service; cbn;
  rewrite <- ?app_assoc, ?app_nil_r; cbn; reflexivity.

Lemma logged_app tr1 tr2 : logged (tr1 ++ tr2) = logged tr1 ++ logged tr2.
Proof.
  induction tr1 as [|e tr1 IH]; [done|].
  destruct e; cbn [app logged]; by rewrite ?IH.
Qed.

Lemma logged_Log lines : logged (Log <$> lines) = lines.
Proof. induction lines as [|l lines IH]; [done|]. cbn. by rewrite IH. Qed.

Lemma forEach_cli_log lines w :
  forEach lines cli_log w = Returned tt (extend (Log <$> lines) w).
Proof.
  revert w. induction lines as [|line lines IH]; intros w.
  - by rewrite extend_nil.
  - cbn [forEach fmap list_fmap]. mrun. by rewrite IH, extend_extend.
Qed.

(** ** The loop of [addServiceAndEnvTags] *)

Section TagLoop.
Variables (service_name stage_name : string).

Lemma lookup_foldl_alter (names : list string)
    (fs : gmap string ExtendedFunctionDefinition) (k : string) :
  NoDup names →
  foldl (λ acc key, alter (taggedFunction service_name stage_name) key acc)
        fs names !! k
  = if decide (k ∈ names)
    then taggedFunction service_name stage_name <$> fs !! k
    else fs !! k.
Proof.
  revert fs. induction names as [|a names IH]; intros fs Hnd; [done|].
  inversion_clear Hnd as [|? ? Ha Hnd']. cbn [foldl]. rewrite IH by done.
  destruct (decide (k = a)) as [->|Hne].
  - rewrite (decide_False (P := a ∈ names)) by done.
    rewrite (decide_True (P := a ∈ a :: names)); [|apply elem_of_cons; by left].
    by rewrite lookup_alter_eq.
  - rewrite lookup_alter_ne by done.
    destruct (decide (k ∈ names)).
    + rewrite (decide_True (P := k ∈ a :: names)); [done|].
      apply elem_of_cons. by right.
    + rewrite (decide_False (P := k ∈ a :: names)); [done|].
      by intros [?|?]%elem_of_cons.
Qed.

(** Visiting every key once is the same as mapping over the values. *)
Lemma foldl_alter_keys (fs : gmap string ExtendedFunctionDefinition) :
  foldl (λ acc key, alter (taggedFunction service_name stage_name) key acc)
        fs (map_to_list fs).*1
  = taggedFunction service_name stage_name <$> fs.
Proof.
  apply map_eq; intros k.
  rewrite lookup_foldl_alter by apply NoDup_fst_map_to_list.
  rewrite lookup_fmap. case_decide as Hk; [done|].
  destruct (fs !! k) as [fd|] eqn:E; [|done].
  exfalso; apply Hk. apply list_elem_of_fmap. exists (k, fd).
  split; [done|]. by apply elem_of_map_to_list.
Qed.
End TagLoop.

Lemma run_getFunction functionName fd w :
  functions (service w) !! functionName = Some fd →
  getFunction functionName w = Returned fd w.
Proof. intros E. unfold getFunction. mrun. by rewrite E. Qed.

Lemma run_tag_loop (names : list string) (w : Serverless) :
  (∀ k, k ∈ names → is_Some (functions (service w) !! k)) →
  forEach names (λ functionName,
    functionDefintion ← getFunction functionName;
    w ← get;
    update_service (λ s,
      set_functions
        (<[functionName :=
             taggedFunction (serviceName (service w)) (stage w) functionDefintion]>
           (functions s)) s)) w
  = Returned tt
      (set_service
         (set_functions
            (foldl (λ acc key,
                      alter (taggedFunction (serviceName (service w)) (stage w)) key acc)
                   (functions (service w)) names)
            (service w))
         w).
Proof.
  revert w. induction names as [|a names IH]; intros w Hdom.
  - cbn [forEach foldl]. by rewrite run_ret, set_functions_id, set_service_id.
  - destruct (Hdom a) as [fd Hfd]; [set_solver|].
    cbn [forEach foldl]. mrun. rewrite (run_getFunction _ fd) by done. mrun.
    rewrite IH.
    + destruct w as [[sn pv pl fs] st tr]; cbn in *.
      unfold set_service, set_functions; cbn.
      do 4 f_equal. apply map_eq; intros k.
      destruct (decide (k = a)) as [->|Hne].
      * by rewrite lookup_insert_eq, lookup_alter_eq, Hfd.
      * by rewrite lookup_insert_ne, lookup_alter_ne.
    + intros k Hk. destruct w as [[sn pv pl fs] st tr]; cbn in *.
      destruct (decide (k = a)) as [->|Hne].
      * rewrite lookup_insert_eq; eauto.
      * rewrite lookup_insert_ne by done. apply Hdom. set_solver.
Qed.

(** [addServiceAndEnvTags] never throws: every name [getAllFunctions]
    lists is a key [getFunction] finds. *)
Lemma run_addServiceAndEnvTags w :
  addServiceAndEnvTags w
  = Returned tt (withTaggedFunctions (extend [AddServiceAndEnvTags] w)).
Proof.
  unfold addServiceAndEnvTags. mrun. rewrite run_tag_loop.
  - unfold getAllFunctions. by rewrite foldl_alter_keys.
  - intros k Hk. unfold getAllFunctions in Hk.
    apply list_elem_of_fmap in Hk as [[k' fd] [-> Hin]].
    apply elem_of_map_to_list in Hin. eauto.
Qed.

(** ** The passes and the two phases *)

Section Runs.
Context `{!Imports}.

Lemma run_getHandlers nodeModuleType w :
  getHandlers nodeModuleType w
  = Returned (handlersOf nodeModuleType (service w))
             (extend [FindHandlersOf nodeModuleType (service w)] w).
Proof. reflexivity. Qed.

Lemma run_readConfig w :
  readConfig w = Returned (getConfig (service w)) (extend [GetConfig] w).
Proof. reflexivity. Qed.

Lemma run_debugLogHandlers handlers w :
  debugLogHandlers handlers w
  = Returned tt (extend (Log <$> diagnostics handlers) w).
Proof.
  unfold debugLogHandlers, diagnostics.
  revert w. induction handlers as [|h handlers IH]; intros w.
  - by rewrite extend_nil.
  - cbn [forEach omap list_omap]. rewrite run_bind.
    destruct (decide (FunctionInfo.type h = UNSUPPORTED)) as [E|NE].
    + unfold diagnostic at 1. rewrite E.
      destruct (FunctionInfo.runtime h);
        rewrite run_cli_log, IH, extend_extend; done.
    + assert (diagnostic h = None) as ->
        by (unfold diagnostic; destruct (FunctionInfo.type h); done).
      by rewrite run_ret, IH.
Qed.

Lemma run_attachLayers config handlers w :
  attachLayers config handlers w
  = Returned tt (set_service (layerService config handlers (service w))
                             (extend (layerEvents config handlers (service w)) w)).
Proof.
  unfold attachLayers, layerService, layerEvents.
  destruct (addLayers config); mrun; [|done].
  rewrite run_debugLogHandlers. mrun. cbn.
  destruct (hasWebpackPlugin _); mrun; same_instance w.
Qed.

Lemma run_injectTracing config w :
  injectTracing config w
  = Returned tt (set_service (enableTracing (service w) (tracingMode config))
                             (extend [EnableTracing (tracingMode config)] w)).
Proof. reflexivity. Qed.

Lemma run_subscribeForwarder config w :
  subscribeForwarder config w
  = Returned tt (set_service (forwarderService config (service w))
                             (extend (forwarderEvents config (service w)) w)).
Proof.
  unfold subscribeForwarder, forwarderService, forwarderEvents.
  destruct (forwarder config) as [arn|];
    [destruct (truthy (Some arn))|]; mrun;
    rewrite ?forEach_cli_log; same_instance w.
Qed.

Lemma run_injectTags config w :
  injectTags config w
  = Returned tt (set_service (tagService config (stage w) (service w))
                             (extend (tagEvents config) w)).
Proof.
  unfold injectTags, tagService, tagEvents.
  destruct (enableTags config); mrun.
  - rewrite run_addServiceAndEnvTags. unfold withTaggedFunctions. same_instance w.
  - same_instance w.
Qed.

Lemma run_redirect config w :
  redirect config w
  = Returned tt
      (set_service
         (redirectHandlers (service w) (handlersOf (nodeModuleType config) (service w))
                           (addLayers config))
         (extend (redirectEvents config (service w)) w)).
Proof.
  unfold redirect. rewrite run_bind, run_getHandlers. mrun. same_instance w.
Qed.

Lemma run_beforePackageFunction w :
  let config := getConfig (service w) in
  let handlers := handlersOf (nodeModuleType config) (configured (service w)) in
  beforePackageFunction w
  = Returned tt
      (set_service
         (enableTracing (layerService config handlers (configured (service w)))
                        (tracingMode config))
         (extend (setupEvents (service w)
                  ++ layerEvents config handlers (configured (service w))
                  ++ [EnableTracing (tracingMode config)]) w)).
Proof.
  intros config handlers. unfold beforePackageFunction.
  mrun. rewrite run_readConfig. mrun. rewrite run_getHandlers. mrun.
  rewrite run_attachLayers. mrun. rewrite run_injectTracing.
  same_instance w.
Qed.

Lemma run_afterPackageFunction w :
  let config := getConfig (service w) in
  afterPackageFunction w
  = Returned tt
      (set_service
         (redirectHandlers (subscribedAndTagged w)
            (handlersOf (nodeModuleType config) (subscribedAndTagged w))
            (addLayers config))
         (extend ([GetConfig]
                  ++ forwarderEvents config (service w)
                  ++ tagEvents config
                  ++ redirectEvents config (subscribedAndTagged w)) w)).
Proof.
  intros config. unfold afterPackageFunction.
  rewrite run_bind, run_readConfig. cbn beta iota.
  rewrite run_bind, run_subscribeForwarder. cbn beta iota.
  rewrite run_bind, run_injectTags. cbn beta iota.
  rewrite run_redirect. unfold subscribedAndTagged.
  same_instance w.
Qed.

End Runs.

(** * The tag pass on one function *)

Lemma ensureTag_settled key value t : settled key value (ensureTag key value t).
Proof.
  unfold settled, ensureTag. destruct (truthy (t !! key)) eqn:E; [by left|].
  right. apply lookup_insert_eq.
Qed.

Lemma ensureTag_fixed key value t : settled key value t → ensureTag key value t = t.
Proof.
  unfold settled, ensureTag. intros [-> | E]; [done|].
  destruct (truthy (t !! key)); [done|]. by apply insert_id.
Qed.

Lemma ensureTag_lookup_ne key value t k :
  key ≠ k → ensureTag key value t !! k = t !! k.
Proof.
  intros Hne. unfold ensureTag. destruct (truthy (t !! key)); [done|].
  by rewrite lookup_insert_ne.
Qed.

Lemma ensureTag_other key value key' value' t :
  key ≠ key' → settled key value t → settled key value (ensureTag key' value' t).
Proof. intros Hne. unfold settled. by rewrite ensureTag_lookup_ne. Qed.

(** A truthy value is never written over; nor is any key but [key]. *)
Lemma ensureTag_keeps key value t k v :
  t !! k = Some v → v ≠ "" → ensureTag key value t !! k = Some v.
Proof.
  intros E Hv. destruct (decide (key = k)) as [->|Hne].
  - unfold ensureTag. rewrite E. cbn.
    destruct (String.eqb_spec v ""); [done|]. by cbn.
  - by rewrite ensureTag_lookup_ne.
Qed.

Lemma TagKeys_distinct : TagKeys.Service ≠ TagKeys.Env.
Proof. done. Qed.

Lemma tags_taggedFunction service_name stage_name fd :
  tags (taggedFunction service_name stage_name fd)
  = Some (ensureTag TagKeys.Env stage_name
            (ensureTag TagKeys.Service service_name (default ∅ (tags fd)))).
Proof. unfold taggedFunction. by destruct (tags fd). Qed.

Lemma taggedFunction_idempotent service_name stage_name fd :
  taggedFunction service_name stage_name (taggedFunction service_name stage_name fd)
  = taggedFunction service_name stage_name fd.
Proof.
  unfold taggedFunction at 1. rewrite tags_taggedFunction.
  rewrite (ensureTag_fixed TagKeys.Service).
  - rewrite (ensureTag_fixed TagKeys.Env) by apply ensureTag_settled.
    unfold taggedFunction, set_tags. by destruct (tags fd).
  - apply ensureTag_other; [apply TagKeys_distinct | apply ensureTag_settled].
Qed.

Lemma taggedFunction_keeps service_name stage_name fd t k v :
  tags fd = Some t → t !! k = Some v → v ≠ "" →
  ∃ t', tags (taggedFunction service_name stage_name fd) = Some t' ∧ t' !! k = Some v.
Proof.
  intros Ht E Hv. eexists. split; [apply tags_taggedFunction|].
  rewrite Ht. cbn. by do 2 (apply ensureTag_keeps; [|done]).
Qed.

(** * The properties of the specification *)

(** C1. The tracing mode of the before-package phase is defined for every
    configuration and follows the table of the two tracing flags:
    neither gives [NONE], vendor tracing alone gives [DD_TRACE] (the vendor
    mode), X-Ray alone gives [XRAY], both give [HYBRID].  The phase always
    returns, and the last thing it does is to hand that mode to
    [enableTracing]. *)
Theorem tracing_mode_derivation `{!Imports} (config : Configuration) (w : Serverless) :
  let table (c : Configuration) :=
    match enableXrayTracing c, enableDDTracing c with
    | false, false => NONE
    | false, true => DD_TRACE
    | true, false => XRAY
    | true, true => HYBRID
    end in
  let resolved := getConfig (service w) in
  tracingMode config = table config
  ∧ ∃ w0, service w0
          = layerService resolved
              (handlersOf (nodeModuleType resolved) (configured (service w)))
              (configured (service w))
     ∧ beforePackageFunction w
       = Returned tt (set_service (enableTracing (service w0) (table resolved))
                                  (extend [EnableTracing (table resolved)] w0)).
Proof.
  intros table resolved.
  assert (∀ c, tracingMode c = table c) as Hmode.
  { intros c. unfold tracingMode, table.
    by destruct (enableXrayTracing c), (enableDDTracing c). }
  split; [apply Hmode|].
  pose (handlers := handlersOf (nodeModuleType resolved) (configured (service w))).
  exists (set_service
            (layerService resolved handlers (configured (service w)))
            (extend (setupEvents (service w)
                     ++ layerEvents resolved handlers (configured (service w))) w)).
  split; [reflexivity|].
  rewrite run_beforePackageFunction. fold resolved handlers. rewrite Hmode.
  same_instance w.
Qed.

(** C9. The hook table is a routing map onto the two entry points: no event
    name is registered twice, looking up a registered name gives the entry
    it was registered with, the before-side events (package initialize,
    deploy-function, local invoke, offline start, datadog generate) are
    bound to [beforePackageFunction], the after-side events and datadog
    clean to [afterPackageFunction], and firing a registered event runs the
    entry point it is bound to and nothing else. *)
Theorem hooks_routing `{!Imports} :
  NoDup hooks.*1
  ∧ Forall (λ binding, hook_of hooks binding.1 = Some binding.2) hooks
  ∧ Forall (λ event, hook_of hooks event = Some beforePackage
                     ∧ runHook event = beforePackageFunction)
      ["after:package:initialize"; "before:deploy:function:packageFunction";
       "before:invoke:local:invoke"; "before:offline:start:init";
       "after:datadog:generate:init"]
  ∧ Forall (λ event, hook_of hooks event = Some afterPackage
                     ∧ runHook event = afterPackageFunction)
      ["after:package:createDeploymentArtifacts";
       "after:deploy:function:packageFunction"; "after:invoke:local:invoke";
       "after:datadog:clean:init"]
  ∧ Forall (λ binding, runHook binding.1 = entryPoint binding.2) hooks.
Proof.
  split; [|split; [|split; [|split]]].
  - apply (bool_decide_unpack _). by vm_compute.
  - repeat constructor.
  - repeat constructor.
  - repeat constructor.
  - repeat constructor.
Qed.

(** ** The tag pass *)

Lemma lookup_withTaggedFunctions w name :
  functions (service (withTaggedFunctions w)) !! name
  = taggedFunction (serviceName (service w)) (stage w)
      <$> functions (service w) !! name.
Proof. unfold withTaggedFunctions. cbn. apply lookup_fmap. Qed.

Lemma withTaggedFunctions_idempotent events w :
  service (withTaggedFunctions (extend events (withTaggedFunctions w)))
  = service (withTaggedFunctions w).
Proof.
  destruct w as [[sn pv pl fs] st tr].
  unfold withTaggedFunctions, set_service, set_functions; cbn. f_equal.
  apply map_eq; intros k. rewrite !lookup_fmap.
  destruct (fs !! k); cbn; [|done]. by rewrite taggedFunction_idempotent.
Qed.

(** C2, as the code has it.  The tag pass always returns; running it a second
    time leaves the service, and so the tags of every function, as the first
    run left them; and a value that is not the empty string, under the
    service key, the environment key or any other key, is still there after
    the pass.  An empty-string value counts as absent. *)
Theorem tag_pass_idempotent_keeps_values (w : Serverless) :
  ∃ w1 w2,
    addServiceAndEnvTags w = Returned tt w1
    ∧ addServiceAndEnvTags w1 = Returned tt w2
    ∧ service w2 = service w1
    ∧ ∀ name fd t key v,
        functions (service w) !! name = Some fd →
        tags fd = Some t →
        t !! key = Some v →
        v ≠ "" →
        ∃ fd' t', functions (service w1) !! name = Some fd'
                  ∧ tags fd' = Some t' ∧ t' !! key = Some v.
Proof.
  exists (withTaggedFunctions (extend [AddServiceAndEnvTags] w)).
  exists (withTaggedFunctions
            (extend [AddServiceAndEnvTags]
               (withTaggedFunctions (extend [AddServiceAndEnvTags] w)))).
  split; [apply run_addServiceAndEnvTags|].
  split; [apply run_addServiceAndEnvTags|].
  split.
  - apply withTaggedFunctions_idempotent.
  - intros name fd t key v Hfd Ht Hkey Hv.
    destruct (taggedFunction_keeps (serviceName (service w)) (stage w) fd t key v)
      as [t' [Ht' Hk']]; [done..|].
    exists (taggedFunction (serviceName (service w)) (stage w) fd), t'.
    split; [|done].
    rewrite lookup_withTaggedFunctions. cbn. by rewrite Hfd.
Qed.

Lemma tag_pass_idempotent_keeps_values_witness :
  ∃ w1 fd' t',
    addServiceAndEnvTags Sample.instance = Returned tt w1
    ∧ functions (service w1) !! "hello" = Some fd'
    ∧ tags fd' = Some t' ∧ t' !! TagKeys.Service = Some "custom".
Proof.
  destruct (tag_pass_idempotent_keeps_values Sample.instance)
    as (w1 & w2 & Hrun & _ & _ & Hkeep).
  destruct (Hkeep "hello" Sample.hello {[ "service" := "custom" ]}
                  TagKeys.Service "custom")
    as (fd' & t' & H1 & H2 & H3);
    [reflexivity | reflexivity | reflexivity | discriminate |].
  exists w1, fd', t'. repeat split; assumption.
Defined.

(** C2 as stated fails: the function [blank] of the sample service carries
    the value [""] under the service key, and the pass replaces it by the
    service name. *)
Lemma tag_pass_overwrites_empty_value :
  functions (service Sample.instance) !! "blank" = Some Sample.blank
  ∧ tags Sample.blank ≫= (.!! TagKeys.Service) = Some ""
  ∧ ∃ w1 fd',
      addServiceAndEnvTags Sample.instance = Returned tt w1
      ∧ functions (service w1) !! "blank" = Some fd'
      ∧ tags fd' ≫= (.!! TagKeys.Service) = Some "shop".
Proof.
  split; [reflexivity|]. split; [reflexivity|].
  eexists _, _. split; [apply run_addServiceAndEnvTags|].
  split; [rewrite lookup_withTaggedFunctions|]; reflexivity.
Qed.

(** C3, as the code has it.  With tag injection enabled, a function tagged
    [{service: "custom"}] and nothing else leaves the tag pass with the tags
    [{service: "custom", env: <stage>}]: the stage is stored under the key
    ["env"]. *)
Theorem tag_pass_stage_under_env (config : Configuration) (w : Serverless)
    (name : string) (fd : ExtendedFunctionDefinition) :
  enableTags config = true →
  functions (service w) !! name = Some fd →
  tags fd = Some {[ "service" := "custom" ]} →
  ∃ w' fd',
    injectTags config w = Returned tt w'
    ∧ functions (service w') !! name = Some fd'
    ∧ tags fd' = Some (<[ "env" := stage w ]> {[ "service" := "custom" ]}).
Proof.
  intros Hon Hfd Htags.
  exists (set_service (tagService config (stage w) (service w))
                      (extend (tagEvents config) w)).
  exists (taggedFunction (serviceName (service w)) (stage w) fd).
  split; [apply run_injectTags|]. split.
  - unfold tagService. rewrite Hon. cbn. by rewrite lookup_fmap, Hfd.
  - rewrite tags_taggedFunction, Htags. reflexivity.
Qed.

Lemma tag_pass_stage_under_env_witness :
  ∃ w' fd',
    injectTags Sample.everything Sample.instance = Returned tt w'
    ∧ functions (service w') !! "hello" = Some fd'
    ∧ tags fd' = Some (<[ "env" := "dev" ]> {[ "service" := "custom" ]}).
Proof.
  apply (tag_pass_stage_under_env Sample.everything Sample.instance
                                  "hello" Sample.hello); reflexivity.
Defined.

(** C3 as stated fails: on the sample service, whose stage is ["dev"], the
    tags of [hello] after the pass are not
    [{service: "custom", environment: "dev"}]; nothing is stored under
    ["environment"]. *)
Lemma tag_pass_no_environment_key :
  enableTags Sample.everything = true
  ∧ functions (service Sample.instance) !! "hello" = Some Sample.hello
  ∧ tags Sample.hello = Some {[ "service" := "custom" ]}
  ∧ ∃ w' fd' t',
      injectTags Sample.everything Sample.instance = Returned tt w'
      ∧ functions (service w') !! "hello" = Some fd'
      ∧ tags fd' = Some t'
      ∧ t' !! "environment" = None
      ∧ t' ≠ <[ "environment" := "dev" ]> {[ "service" := "custom" ]}.
Proof.
  split; [reflexivity|]. split; [reflexivity|]. split; [reflexivity|].
  eexists _, _, _. split; [apply run_injectTags|].
  split; [reflexivity|]. split; [reflexivity|]. split; [reflexivity|].
  intros Heq. apply (f_equal (.!! "environment")) in Heq. discriminate Heq.
Qed.

(** ** Events of a trace *)

Lemma elem_of_Log_fmap (e : Event) (lines : list string) :
  e ∈ Log <$> lines → ∃ line, e = Log line.
Proof. intros (line & -> & _)%list_elem_of_fmap. by exists line. Qed.

Lemma precedes_intro (e1 e2 : Event) (before between after tr : list Event) :
  tr = before ++ e1 :: between ++ e2 :: after → precedes e1 e2 tr.
Proof. intros ->. by exists before, between, after. Qed.

(** ** The before-package phase *)

(** C6. When "add layers" is off, the layer pass only logs that it is
    skipped: it leaves the service, and with it every function definition,
    as it found it, and the whole phase calls neither [applyLayers] nor
    [forceExcludeDepsFromWebpack].  When it is on, the pass calls
    [applyLayers], and calls [forceExcludeDepsFromWebpack] exactly when
    [hasWebpackPlugin] answers true for the service. *)
Theorem layer_pass_gate `{!Imports} (config : Configuration)
    (handlers : list FunctionInfo.t) (w : Serverless) :
  (addLayers config = false →
     attachLayers config handlers w
     = Returned tt
         (extend [Log "Skipping adding Lambda Layers, make sure you are packaging them yourself"] w))
  ∧ (addLayers config = true →
       ∃ w' events,
         attachLayers config handlers w = Returned tt w'
         ∧ trace w' = trace w ++ events
         ∧ ApplyLayers (region (provider (service w))) handlers ∈ events
         ∧ (ForceExcludeDepsFromWebpack ∈ events
            ↔ hasWebpackPlugin
                (applyLayers (region (provider (service w))) handlers (service w))
              = true))
  ∧ (addLayers (getConfig (service w)) = false →
       ∃ w' events,
         beforePackageFunction w = Returned tt w'
         ∧ trace w' = trace w ++ events
         ∧ (∀ rgn hs, ApplyLayers rgn hs ∉ events)
         ∧ (ForceExcludeDepsFromWebpack ∉ events)
         ∧ service w'
           = enableTracing (configured (service w))
                           (tracingMode (getConfig (service w)))).
Proof.
  split; [|split].
  - intros Hoff. rewrite run_attachLayers.
    unfold layerService, layerEvents. rewrite Hoff. by destruct w.
  - intros Hon. eexists _, (layerEvents config handlers (service w)).
    split; [apply run_attachLayers|]. split; [reflexivity|].
    unfold layerEvents. rewrite Hon. split.
    + apply elem_of_cons; right. apply elem_of_app; right.
      apply elem_of_cons; by left.
    + destruct (hasWebpackPlugin _); split; try done.
      * intros _. apply elem_of_cons; right. apply elem_of_app; right.
        apply elem_of_cons; right. apply elem_of_cons; by left.
      * intros [?|[Hin|[?|Hin]%elem_of_cons]%elem_of_app]%elem_of_cons;
          try done.
        -- by apply elem_of_Log_fmap in Hin as [line ?].
        -- by apply elem_of_nil in Hin.
  - intros Hoff. eexists _, _.
    split; [apply run_beforePackageFunction|]. split; [reflexivity|].
    unfold layerService, layerEvents, setupEvents. rewrite Hoff.
    repeat split.
    + intros rgn hs Hin. cbn in Hin.
      repeat (apply elem_of_cons in Hin as [?|Hin]; [done|]).
      by apply elem_of_nil in Hin.
    + intros Hin. cbn in Hin.
      repeat (apply elem_of_cons in Hin as [?|Hin]; [done|]).
      by apply elem_of_nil in Hin.
Qed.

Lemma layer_pass_gate_witness :
  let Imp := Sample.imports Sample.withoutLayers in
  ∃ w' events,
    beforePackageFunction Sample.instance = Returned tt w'
    ∧ trace w' = trace Sample.instance ++ events
    ∧ (∀ rgn hs, ApplyLayers rgn hs ∉ events)
    ∧ (ForceExcludeDepsFromWebpack ∉ events)
    ∧ service w'
      = enableTracing (configured (service Sample.instance))
                      (tracingMode (getConfig (service Sample.instance))).
Proof.
  intros Imp.
  apply (@layer_pass_gate Imp Sample.withoutLayers [] Sample.instance).
  reflexivity.
Defined.

(** ** The after-package phase *)

Lemma elem_of_tagEvents config e :
  e ∈ tagEvents config →
  e = Log "Adding service and environment tags to functions" ∨ e = AddServiceAndEnvTags.
Proof.
  unfold tagEvents. destruct (enableTags config).
  - intros [?|[?|Hin%elem_of_nil]%elem_of_cons]%elem_of_cons; tauto.
  - by intros ?%elem_of_nil.
Qed.

(** C5. The after-package phase always returns.  It calls
    [addCloudWatchForwarderSubscriptions] only if a forwarder is configured;
    when one is, each error string the call resolves to is logged as a line
    of its own, in order, right after the call, and the events of the tag
    pass and of handler redirection follow, whatever the number of
    errors. *)
Theorem forwarder_errors_logged `{!Imports} (w : Serverless) :
  let config := getConfig (service w) in
  ∃ w' events,
    afterPackageFunction w = Returned tt w'
    ∧ trace w' = trace w ++ events
    ∧ (∀ arn, AddCloudWatchForwarderSubscriptions arn ∈ events →
              forwarder config = Some arn ∧ arn ≠ "")
    ∧ (∀ arn, forwarder config = Some arn → arn ≠ "" →
         let errors := (addCloudWatchForwarderSubscriptions (service w) arn).2 in
         events
         = [GetConfig; AddCloudWatchForwarderSubscriptions arn]
           ++ (Log <$> errors)
           ++ tagEvents config
           ++ redirectEvents config (subscribedAndTagged w)
         ∧ logged events = errors ++ logged (tagEvents config)).
Proof.
  intros config. eexists _, _.
  split; [apply run_afterPackageFunction|]. split; [reflexivity|].
  fold config. unfold forwarderEvents. split.
  - intros arn Hin.
    apply elem_of_app in Hin as [Hin|Hin];
      [apply elem_of_cons in Hin as [?|Hin%elem_of_nil]; done|].
    apply elem_of_app in Hin as [Hin|Hin].
    + destruct (forwarder config) as [arn'|]; [|by apply elem_of_nil in Hin].
      cbn in Hin. destruct (String.eqb_spec arn' ""); cbn in Hin;
        [by apply elem_of_nil in Hin|].
      apply elem_of_cons in Hin as [Heq|Hin].
      * by injection Heq as ->.
      * by apply elem_of_Log_fmap in Hin as [line ?].
    + apply elem_of_app in Hin as [Hin|Hin].
      * by apply elem_of_tagEvents in Hin as [?|?].
      * unfold redirectEvents in Hin.
        repeat (apply elem_of_cons in Hin as [?|Hin]; [done|]).
        by apply elem_of_nil in Hin.
  - intros arn Hfw Hne. cbn zeta. rewrite Hfw. cbn.
    destruct (String.eqb_spec arn ""); [done|]. cbn. split; [done|].
    rewrite logged_app, logged_Log, logged_app. cbn.
    by rewrite app_nil_r.
Qed.

Lemma forwarder_errors_logged_witness :
  let Imp := Sample.imports Sample.everything in
  ∃ w',
    afterPackageFunction Sample.instance = Returned tt w'
    ∧ logged (trace w')
      = ["Could not subscribe legacy: log group not found";
         "Adding service and environment tags to functions"].
Proof.
  intros Imp.
  destruct (@forwarder_errors_logged Imp Sample.instance)
    as (w' & events & Hrun & Htrace & _ & Hlog).
  destruct (Hlog "arn:aws:lambda:us-east-1:1:function:fwd")
    as [_ Hlines]; [reflexivity | discriminate |].
  exists w'. split; [exact Hrun|].
  rewrite Htrace. exact Hlines.
Defined.

(** C10. Every run of the after-package phase ends with handler redirection:
    its last two events are the classification of the functions and the call
    of [redirectHandlers] on the whole list that classification returned,
    with the resolved [addLayers] flag, and the service it leaves is the one
    [redirectHandlers] made.  No flag guards the call: it is there too when
    no forwarder is configured and tag injection is off, in which case
    nothing but reading the configuration comes before it. *)
Theorem redirect_always_runs `{!Imports} (w : Serverless) :
  let config := getConfig (service w) in
  let handlers := handlersOf (nodeModuleType config) (subscribedAndTagged w) in
  ∃ w' earlier,
    afterPackageFunction w = Returned tt w'
    ∧ trace w'
      = trace w ++ earlier
        ++ [FindHandlersOf (nodeModuleType config) (subscribedAndTagged w);
            RedirectHandlers handlers (addLayers config)]
    ∧ service w' = redirectHandlers (subscribedAndTagged w) handlers (addLayers config)
    ∧ (∀ hs flag, RedirectHandlers hs flag ∉ earlier)
    ∧ (truthy (forwarder config) = false → enableTags config = false →
         earlier = [GetConfig] ∧ subscribedAndTagged w = service w).
Proof.
  intros config handlers.
  exists (set_service
            (redirectHandlers (subscribedAndTagged w) handlers (addLayers config))
            (extend ([GetConfig] ++ forwarderEvents config (service w)
                     ++ tagEvents config
                     ++ redirectEvents config (subscribedAndTagged w)) w)).
  exists ([GetConfig] ++ forwarderEvents config (service w) ++ tagEvents config).
  split; [apply run_afterPackageFunction|].
  split; [cbn; by rewrite <- !app_assoc|].
  split; [reflexivity|]. split.
  - intros hs flag Hin.
    apply elem_of_app in Hin as [Hin|Hin];
      [apply elem_of_cons in Hin as [?|Hin%elem_of_nil]; done|].
    apply elem_of_app in Hin as [Hin|Hin].
    + unfold forwarderEvents in Hin.
      destruct (forwarder config) as [arn|]; [|by apply elem_of_nil in Hin].
      destruct (truthy (Some arn)); [|by apply elem_of_nil in Hin].
      apply elem_of_cons in Hin as [?|Hin]; [done|].
      by apply elem_of_Log_fmap in Hin as [line ?].
    + by apply elem_of_tagEvents in Hin as [?|?].
  - intros Hfw Htags.
    unfold subscribedAndTagged, tagService, forwarderService, forwarderEvents, tagEvents.
    fold config. rewrite Htags.
    destruct (forwarder config) as [arn|]; [|done].
    by rewrite Hfw.
Qed.

Lemma redirect_always_runs_witness :
  let Imp := Sample.imports Sample.defaults in
  ∃ w',
    afterPackageFunction Sample.instance = Returned tt w'
    ∧ trace w'
      = [GetConfig; FindHandlers None None;
         RedirectHandlers (handlersOf None Sample.manifest) true].
Proof.
  intros Imp.
  destruct (@redirect_always_runs Imp Sample.instance)
    as (w' & earlier & Hrun & Htrace & _ & _ & Hbare).
  destruct Hbare as [Hearlier Hsame]; [reflexivity | reflexivity |].
  exists w'. split; [exact Hrun|].
  rewrite Htrace, Hearlier, Hsame. reflexivity.
Defined.

(** ** The order of the passes *)

(** C4. Whichever registered event fires, the phase it is bound to runs its
    passes in one order.  Before package: the events of the set-up, then
    those of the layer pass, then the call of [enableTracing]; so, when
    layers are added, [applyLayers] is called before [enableTracing].  After
    package: reading the configuration, then the events of the forwarder
    pass, then those of the tag pass, then those of handler redirection; so
    the forwarder call, when there is one, comes before the tag pass and
    before [redirectHandlers], and the tag pass, when it runs, comes before
    [redirectHandlers]. *)
Theorem phases_run_in_order `{!Imports} (event : string) (w : Serverless) :
  let config := getConfig (service w) in
  let s1 := configured (service w) in
  let s2 := subscribedAndTagged w in
  let layered := handlersOf (nodeModuleType config) s1 in
  let redirected := RedirectHandlers (handlersOf (nodeModuleType config) s2)
                                     (addLayers config) in
  (hook_of hooks event = Some beforePackage →
     ∃ w' events,
       runHook event w = Returned tt w'
       ∧ trace w' = trace w ++ events
       ∧ events = setupEvents (service w) ++ layerEvents config layered s1
                  ++ [EnableTracing (tracingMode config)]
       ∧ (addLayers config = true →
            precedes (ApplyLayers (region (provider s1)) layered)
                     (EnableTracing (tracingMode config)) events))
  ∧ (hook_of hooks event = Some afterPackage →
       ∃ w' events,
         runHook event w = Returned tt w'
         ∧ trace w' = trace w ++ events
         ∧ events = [GetConfig] ++ forwarderEvents config (service w)
                    ++ tagEvents config ++ redirectEvents config s2
         ∧ (∀ arn, forwarder config = Some arn → arn ≠ "" →
              precedes (AddCloudWatchForwarderSubscriptions arn) redirected events
              ∧ (enableTags config = true →
                   precedes (AddCloudWatchForwarderSubscriptions arn)
                            AddServiceAndEnvTags events))
         ∧ (enableTags config = true →
              precedes AddServiceAndEnvTags redirected events)).
Proof.
  intros config s1 s2 layered redirected. split.
  - intros Hhook. unfold runHook. rewrite Hhook. cbn [entryPoint].
    eexists _, _. split; [apply run_beforePackageFunction|].
    split; [reflexivity|]. split; [reflexivity|].
    intros Hon. fold config s1 layered.
    unfold layerEvents. rewrite Hon.
    apply (precedes_intro _ _
             (setupEvents (service w)
              ++ Log "Adding Lambda Layers to functions"
                 :: (Log <$> diagnostics layered))
             (if hasWebpackPlugin (applyLayers (region (provider s1)) layered s1)
              then [ForceExcludeDepsFromWebpack] else [])
             []).
    rewrite <- !app_assoc. cbn. by rewrite <- !app_assoc.
  - intros Hhook. unfold runHook. rewrite Hhook. cbn [entryPoint].
    eexists _, _. split; [apply run_afterPackageFunction|].
    split; [reflexivity|]. split; [reflexivity|].
    fold config s2. unfold redirectEvents. split.
    + intros arn Hfw Hne. unfold forwarderEvents. rewrite Hfw. cbn [truthy].
      destruct (String.eqb_spec arn ""); [done|]. cbn [negb]. split.
      * apply (precedes_intro _ _ [GetConfig]
                 ((Log <$> (addCloudWatchForwarderSubscriptions (service w) arn).2)
                  ++ tagEvents config
                  ++ [FindHandlersOf (nodeModuleType config) s2])
                 []).
        cbn. rewrite <- !app_assoc. reflexivity.
      * intros Hon. unfold tagEvents. rewrite Hon.
        apply (precedes_intro _ _ [GetConfig]
                 ((Log <$> (addCloudWatchForwarderSubscriptions (service w) arn).2)
                  ++ [Log "Adding service and environment tags to functions"])
                 [FindHandlersOf (nodeModuleType config) s2; redirected]).
        cbn. rewrite <- !app_assoc. reflexivity.
    + intros Hon. unfold tagEvents. rewrite Hon.
      apply (precedes_intro _ _
                ([GetConfig] ++ forwarderEvents config (service w)
                 ++ [Log "Adding service and environment tags to functions"])
                [FindHandlersOf (nodeModuleType config) s2] []).
      cbn. rewrite <- !app_assoc. reflexivity.
Qed.

Lemma phases_run_in_order_witness :
  let Imp := Sample.imports Sample.everything in
  ∃ w' events,
    runHook "after:deploy:function:packageFunction" Sample.instance = Returned tt w'
    ∧ trace w' = trace Sample.instance ++ events
    ∧ precedes AddServiceAndEnvTags
        (RedirectHandlers
           (handlersOf (Some "typescript") (subscribedAndTagged Sample.instance))
           true)
        events.
Proof.
  intros Imp.
  destruct (@phases_run_in_order Imp "after:deploy:function:packageFunction"
                                 Sample.instance) as [_ Hafter].
  destruct Hafter as (w' & events & Hrun & Htrace & _ & _ & Horder);
    [reflexivity|].
  exists w', events. split; [exact Hrun|]. split; [exact Htrace|].
  apply Horder. reflexivity.
Defined.

(** ** Classification *)

Lemma elem_of_classifier known s defaultRuntime hint h :
  h ∈ classifier known s defaultRuntime hint
  ↔ ∃ fd, functions s !! FunctionInfo.name h = Some fd
          ∧ h = FunctionInfo.mk (FunctionInfo.name h)
                  (classify known (effectiveRuntime fd defaultRuntime) hint)
                  (effectiveRuntime fd defaultRuntime) fd.
Proof.
  unfold classifier. rewrite list_elem_of_fmap. split.
  - intros ([name fd] & -> & Hin). apply elem_of_map_to_list in Hin.
    by exists fd.
  - intros (fd & Hfd & Heq). exists (FunctionInfo.name h, fd).
    split; [done|]. by apply elem_of_map_to_list.
Qed.

(** C7.  [getHandlers] turns the module-type hint into the override it gives
    the classifier: ["typescript"] into [NODE_TS], ["es6"] into [NODE_ES6],
    ["node"] into [NODE], and no hint into no override.  With the classifier
    of the specification, a function whose runtime is of the Node family is
    then classified as the override says, and as generic [NODE] when there is
    none. *)
Theorem node_module_type_hint `{!Imports} (known : string → option RuntimeType)
    (w : Serverless) (name : string) (fd : ExtendedFunctionDefinition) (rt : string) :
  let defaultRuntime := provider_runtime (provider (service w)) in
  let classifiedAs (hint : option string) (override : option RuntimeType)
        (type : RuntimeType) :=
    ∃ hs w',
      getHandlers hint w = Returned hs w'
      ∧ trace w' = trace w ++ [FindHandlers defaultRuntime override]
      ∧ FunctionInfo.mk name type (Some rt) fd ∈ hs
      ∧ ∀ h, h ∈ hs → FunctionInfo.name h = name → FunctionInfo.type h = type in
  (∀ s d hint, findHandlers s d hint = classifier known s d hint) →
  functions (service w) !! name = Some fd →
  effectiveRuntime fd defaultRuntime = Some rt →
  known rt = Some NODE →
  classifiedAs (Some "typescript") (Some NODE_TS) NODE_TS
  ∧ classifiedAs (Some "es6") (Some NODE_ES6) NODE_ES6
  ∧ classifiedAs (Some "node") (Some NODE) NODE
  ∧ classifiedAs None None NODE.
Proof.
  intros defaultRuntime classifiedAs Hfind Hfd Hrt Hnode.
  assert (∀ hint, classifiedAs hint (defaultNodeRuntime hint)
                    (default NODE (defaultNodeRuntime hint))) as Hall.
  { intros hint. eexists _, _. split; [apply run_getHandlers|].
    split; [reflexivity|]. unfold handlersOf. rewrite Hfind. fold defaultRuntime.
    split.
    - apply elem_of_classifier. exists fd. cbn. split; [done|].
      rewrite Hrt. cbn. by rewrite Hnode.
    - intros h (fd' & Hfd' & ->)%elem_of_classifier Hname. cbn in *.
      rewrite Hname, Hfd in Hfd'. injection Hfd' as <-.
      rewrite Hrt. cbn. by rewrite Hnode. }
  repeat split.
  - apply (Hall (Some "typescript")).
  - apply (Hall (Some "es6")).
  - apply (Hall (Some "node")).
  - apply (Hall None).
Qed.

Lemma node_module_type_hint_witness :
  let Imp := Sample.imports Sample.everything in
  ∃ hs w',
    getHandlers (Some "typescript") Sample.instance = Returned hs w'
    ∧ trace w' = trace Sample.instance ++ [FindHandlers None (Some NODE_TS)]
    ∧ FunctionInfo.mk "hello" NODE_TS (Some "nodejs18.x") Sample.hello ∈ hs
    ∧ ∀ h, h ∈ hs → FunctionInfo.name h = "hello" → FunctionInfo.type h = NODE_TS.
Proof.
  intros Imp.
  destruct (@node_module_type_hint Imp Sample.known Sample.instance
              "hello" Sample.hello "nodejs18.x") as [Hts _];
    [reflexivity | reflexivity | reflexivity | reflexivity |].
  exact Hts.
Defined.

(** ** Diagnostics *)

Lemma elem_of_diagnostics h handlers line :
  h ∈ handlers → diagnostic h = Some line → line ∈ diagnostics handlers.
Proof.
  intros Hin Hline. unfold diagnostics. apply list_elem_of_omap. by exists h.
Qed.

(** C8, as the code has it.  [debugLogHandlers] never throws, leaves the
    service alone, and logs, for every entry of its list classified
    [UNSUPPORTED], a line naming the function: that its runtime could not be
    determined when the entry has no runtime string, and otherwise a line
    with the function name and that runtime string.  The before-package
    phase calls it, and so records these lines for the functions of the
    service, when "add layers" is enabled. *)
Theorem unsupported_diagnostics `{!Imports} (handlers : list FunctionInfo.t)
    (w : Serverless) (h : FunctionInfo.t) :
  let line :=
    match FunctionInfo.runtime h with
    | None => "Unable to determine runtime for function " +:+ FunctionInfo.name h
    | Some rt =>
        "Unable to add Lambda Layers to function " +:+ FunctionInfo.name h
        +:+ " with runtime " +:+ rt
    end in
  FunctionInfo.type h = UNSUPPORTED →
  (h ∈ handlers →
     ∃ w', debugLogHandlers handlers w = Returned tt w'
           ∧ service w' = service w
           ∧ line ∈ logged (trace w'))
  ∧ (addLayers (getConfig (service w)) = true →
     h ∈ handlersOf (nodeModuleType (getConfig (service w))) (configured (service w)) →
     ∃ w', beforePackageFunction w = Returned tt w'
           ∧ line ∈ logged (trace w')).
Proof.
  intros line Hun.
  assert (diagnostic h = Some line) as Hline.
  { unfold diagnostic, line. rewrite Hun. by destruct (FunctionInfo.runtime h). }
  split.
  - intros Hin. eexists. split; [apply run_debugLogHandlers|].
    split; [reflexivity|]. unfold extend. cbn [trace].
    rewrite logged_app, logged_Log.
    apply elem_of_app; right. by eapply elem_of_diagnostics.
  - intros Hon Hin. eexists. split; [apply run_beforePackageFunction|].
    unfold set_service, extend. cbn [trace]. rewrite !logged_app.
    unfold layerEvents. rewrite Hon.
    apply elem_of_app; right. apply elem_of_app; right.
    apply elem_of_app; left. cbn [logged]. apply elem_of_cons; right.
    rewrite logged_app, logged_Log. apply elem_of_app; left.
    by eapply elem_of_diagnostics.
Qed.

Lemma unsupported_diagnostics_witness :
  let Imp := Sample.imports Sample.defaults in
  ∃ w', beforePackageFunction Sample.instance = Returned tt w'
        ∧ "Unable to add Lambda Layers to function legacy with runtime go1.x"
          ∈ logged (trace w').
Proof.
  intros Imp.
  destruct (@unsupported_diagnostics Imp [] Sample.instance
              (FunctionInfo.mk "legacy" UNSUPPORTED (Some "go1.x") Sample.legacy))
    as [_ Hphase]; [reflexivity|].
  apply Hphase; [reflexivity|].
  apply elem_of_classifier. exists Sample.legacy. split; reflexivity.
Defined.

(** C8 as stated fails: with "add layers" off, the before-package phase runs
    on the sample service, whose function [legacy] is classified
    [UNSUPPORTED], and logs two lines, neither of them about [legacy]. *)
Lemma no_diagnostic_without_layers :
  let Imp := Sample.imports Sample.withoutLayers in
  FunctionInfo.mk "legacy" UNSUPPORTED (Some "go1.x") Sample.legacy
    ∈ handlersOf (nodeModuleType Sample.withoutLayers) (configured Sample.manifest)
  ∧ ∃ w', beforePackageFunction Sample.instance = Returned tt w'
          ∧ logged (trace w')
            = ["Auto instrumenting functions with Datadog";
               "Skipping adding Lambda Layers, make sure you are packaging them yourself"].
Proof.
  intros Imp. split.
  - apply elem_of_classifier. exists Sample.legacy. split; reflexivity.
  - eexists. split; [apply run_beforePackageFunction|]. reflexivity.
Qed.

(** * The sample service, run *)

(** With the default configuration, the before-package phase logs one
    diagnostic for each of the two functions it cannot classify. *)
Example sample_before_package_log :
  let Imp := Sample.imports Sample.defaults in
  ∃ w', beforePackageFunction Sample.instance = Returned tt w'
        ∧ logged (trace w')
          = ["Auto instrumenting functions with Datadog";
             "Adding Lambda Layers to functions";
             "Unable to determine runtime for function blank";
             "Unable to add Lambda Layers to function legacy with runtime go1.x"].
Proof.
  intros Imp. eexists. split; [apply run_beforePackageFunction|].
  vm_compute. reflexivity.
Qed.

(** With a forwarder and tags on, the after-package phase leaves [legacy],
    which had no tags, tagged with the service name and the stage. *)
Example sample_after_package_tags :
  let Imp := Sample.imports Sample.everything in
  ∃ w' fd,
    afterPackageFunction Sample.instance = Returned tt w'
    ∧ functions (service w') !! "legacy" = Some fd
    ∧ tags fd = Some (<[ "env" := "dev" ]> {[ "service" := "shop" ]}).
Proof.
  intros Imp. eexists _, _. split; [apply run_afterPackageFunction|].
  split; reflexivity.
Qed.

(** * Further properties of the code *)

(** ** The [switch] of [getHandlers] *)


(** ** The tracing mode *)

(** X11. The tracing mode loses nothing: two configurations with the same
    mode agree on both tracing flags. *)
Theorem tracingMode_injective (c1 c2 : Configuration) :
  tracingMode c1 = tracingMode c2 →
  enableXrayTracing c1 = enableXrayTracing c2
  ∧ enableDDTracing c1 = enableDDTracing c2.
Proof.
  unfold tracingMode.
  destruct (enableXrayTracing c1), (enableDDTracing c1),
           (enableXrayTracing c2), (enableDDTracing c2); cbn; by intros.
Qed.

Lemma tracingMode_injective_witness :
  enableXrayTracing Sample.defaults = enableXrayTracing Sample.withoutLayers
  ∧ enableDDTracing Sample.defaults = enableDDTracing Sample.withoutLayers.
Proof.
  apply (tracingMode_injective Sample.defaults Sample.withoutLayers).
  reflexivity.
Defined.

(** ** More on the tag pass *)

Lemma ensureTag_lookup key value t :
  ensureTag key value t !! key
  = if truthy (t !! key) then t !! key else Some value.
Proof.
  unfold ensureTag. destruct (truthy (t !! key)); [done|].
  apply lookup_insert_eq.
Qed.

Lemma truthy_is_Some v : truthy v = true → is_Some v.
Proof. destruct v; [eauto|done]. Qed.

Lemma truthy_Some v : truthy (Some v) = true ↔ v ≠ "".
Proof. cbn. destruct (String.eqb_spec v ""); cbn; split; done. Qed.

(** The tags of a tagged function, key by key. *)
Lemma taggedFunction_lookup service_name stage_name fd key :
  ∃ t', tags (taggedFunction service_name stage_name fd) = Some t'
        ∧ t' !! key
          = if decide (key = TagKeys.Service) then
              if truthy (default ∅ (tags fd) !! TagKeys.Service)
              then default ∅ (tags fd) !! TagKeys.Service else Some service_name
            else if decide (key = TagKeys.Env) then
              if truthy (default ∅ (tags fd) !! TagKeys.Env)
              then default ∅ (tags fd) !! TagKeys.Env else Some stage_name
            else default ∅ (tags fd) !! key.
Proof.
  eexists. split; [apply tags_taggedFunction|].
  destruct (decide (key = TagKeys.Service)) as [->|Hs].
  - rewrite ensureTag_lookup_ne by done. apply ensureTag_lookup.
  - destruct (decide (key = TagKeys.Env)) as [->|He].
    + rewrite ensureTag_lookup.
      by rewrite (ensureTag_lookup_ne TagKeys.Service) by done.
    + by rewrite !ensureTag_lookup_ne.
Qed.

(** X2. The tag pass always returns and touches nothing but tags: the stage,
    the service name, the provider and the plugins are as before, no function
    is added, removed or renamed, every function keeps its handler, runtime
    and environment, and no line is logged. *)
Theorem tag_pass_frame (w : Serverless) :
  ∃ w',
    addServiceAndEnvTags w = Returned tt w'
    ∧ stage w' = stage w
    ∧ serviceName (service w') = serviceName (service w)
    ∧ provider (service w') = provider (service w)
    ∧ plugins (service w') = plugins (service w)
    ∧ logged (trace w') = logged (trace w)
    ∧ dom (functions (service w')) = dom (functions (service w))
    ∧ ∀ name fd,
        functions (service w) !! name = Some fd →
        ∃ fd', functions (service w') !! name = Some fd'
               ∧ handler fd' = handler fd
               ∧ runtime fd' = runtime fd
               ∧ environment fd' = environment fd.
Proof.
  eexists. split; [apply run_addServiceAndEnvTags|].
  do 4 (split; [reflexivity|]). split.
  { unfold withTaggedFunctions, extend, set_service; cbn [trace].
    rewrite logged_app. cbn. by rewrite app_nil_r. }
  split.
  { unfold withTaggedFunctions; cbn. apply dom_fmap_L. }
  intros name fd Hfd. eexists. rewrite lookup_withTaggedFunctions. cbn.
  rewrite Hfd. split; [reflexivity|]. by unfold taggedFunction.
Qed.

Lemma tag_pass_frame_witness :
  ∃ w' fd',
    addServiceAndEnvTags Sample.instance = Returned tt w'
    ∧ functions (service w') !! "legacy" = Some fd'
    ∧ handler fd' = "bin/main" ∧ runtime fd' = Some "go1.x".
Proof.
  destruct (tag_pass_frame Sample.instance)
    as (w' & Hrun & _ & _ & _ & _ & _ & _ & Hkeep).
  destruct (Hkeep "legacy" Sample.legacy) as (fd' & Hfd' & Hh & Hr & _);
    [reflexivity|].
  exists w', fd'. repeat split; assumption.
Defined.

(** X3. After the tag pass every function of the service has a tags object
    with both a ["service"] and an ["env"] entry; and when the service name
    and the stage are not empty, neither entry is the empty string. *)
Theorem tag_pass_both_tags_present (w : Serverless) (name : string)
    (fd : ExtendedFunctionDefinition) :
  functions (service w) !! name = Some fd →
  ∃ w' fd' t',
    addServiceAndEnvTags w = Returned tt w'
    ∧ functions (service w') !! name = Some fd'
    ∧ tags fd' = Some t'
    ∧ is_Some (t' !! "service") ∧ is_Some (t' !! "env")
    ∧ (serviceName (service w) ≠ "" → truthy (t' !! "service") = true)
    ∧ (stage w ≠ "" → truthy (t' !! "env") = true).
Proof.
  intros Hfd.
  destruct (taggedFunction_lookup (serviceName (service w)) (stage w) fd "service")
    as (t' & Ht' & Hs).
  destruct (taggedFunction_lookup (serviceName (service w)) (stage w) fd "env")
    as (t'' & Ht'' & He).
  rewrite Ht' in Ht''. injection Ht'' as <-.
  rewrite decide_True in Hs by done.
  rewrite decide_False, decide_True in He by done.
  eexists _, _, t'. split; [apply run_addServiceAndEnvTags|].
  split; [rewrite lookup_withTaggedFunctions; cbn; by rewrite Hfd|].
  split; [exact Ht'|].
  rewrite Hs, He.
  destruct (truthy (default ∅ (tags fd) !! TagKeys.Service)) eqn:Es,
           (truthy (default ∅ (tags fd) !! TagKeys.Env)) eqn:Ee;
    repeat split; eauto using truthy_is_Some;
    intros Hne; by apply truthy_Some.
Qed.

Lemma tag_pass_both_tags_present_witness :
  ∃ w' fd' t',
    addServiceAndEnvTags Sample.instance = Returned tt w'
    ∧ functions (service w') !! "blank" = Some fd'
    ∧ tags fd' = Some t'
    ∧ truthy (t' !! "service") = true ∧ truthy (t' !! "env") = true.
Proof.
  destruct (tag_pass_both_tags_present Sample.instance "blank" Sample.blank)
    as (w' & fd' & t' & Hrun & Hfd' & Ht' & _ & _ & Hs & He); [reflexivity|].
  exists w', fd', t'. repeat split; try assumption.
  - apply Hs. discriminate.
  - apply He. discriminate.
Defined.

(** X4. A function that comes without tags, or with an empty tags object,
    leaves the tag pass with exactly the two tags the pass writes: the
    service name under ["service"] and the stage under ["env"]. *)
Theorem tag_pass_untagged_function (w : Serverless) (name : string)
    (fd : ExtendedFunctionDefinition) :
  functions (service w) !! name = Some fd →
  tags fd = None ∨ tags fd = Some ∅ →
  ∃ w' fd',
    addServiceAndEnvTags w = Returned tt w'
    ∧ functions (service w') !! name = Some fd'
    ∧ tags fd'
      = Some (<[ "env" := stage w ]> {[ "service" := serviceName (service w) ]}).
Proof.
  intros Hfd Hnone. eexists _, _. split; [apply run_addServiceAndEnvTags|].
  split; [rewrite lookup_withTaggedFunctions; cbn; by rewrite Hfd|].
  rewrite tags_taggedFunction.
  assert (default ∅ (tags fd) = ∅) as -> by (by destruct Hnone as [-> | ->]).
  reflexivity.
Qed.

Lemma tag_pass_untagged_function_witness :
  ∃ w' fd',
    addServiceAndEnvTags Sample.instance = Returned tt w'
    ∧ functions (service w') !! "legacy" = Some fd'
    ∧ tags fd' = Some (<[ "env" := "dev" ]> {[ "service" := "shop" ]}).
Proof.
  apply (tag_pass_untagged_function Sample.instance "legacy" Sample.legacy);
    [reflexivity | left; reflexivity].
Defined.

(** X5. The tag pass reads and writes two keys only: under every other key
    each function has after the pass the value it had before, or still none;
    and no key a function had is removed. *)
Theorem tag_pass_other_keys (w : Serverless) (name : string)
    (fd : ExtendedFunctionDefinition) :
  functions (service w) !! name = Some fd →
  ∃ w' fd' t',
    addServiceAndEnvTags w = Returned tt w'
    ∧ functions (service w') !! name = Some fd'
    ∧ tags fd' = Some t'
    ∧ (∀ key, key ≠ "service" → key ≠ "env" →
              t' !! key = default ∅ (tags fd) !! key)
    ∧ dom (default ∅ (tags fd)) ⊆ dom t'.
Proof.
  intros Hfd. eexists _, _, _. split; [apply run_addServiceAndEnvTags|].
  split; [rewrite lookup_withTaggedFunctions; cbn; by rewrite Hfd|].
  split; [apply tags_taggedFunction|]. split.
  - intros key Hs He. by rewrite !ensureTag_lookup_ne.
  - intros key [v Hv]%elem_of_dom. apply elem_of_dom.
    destruct (decide (key = TagKeys.Env)) as [->|He].
    + rewrite ensureTag_lookup, (ensureTag_lookup_ne TagKeys.Service) by done.
      rewrite Hv. destruct (truthy (Some v)); eauto.
    + rewrite ensureTag_lookup_ne by done.
      destruct (decide (key = TagKeys.Service)) as [->|Hs].
      * rewrite ensureTag_lookup, Hv. destruct (truthy (Some v)); eauto.
      * rewrite ensureTag_lookup_ne by done. eauto.
Qed.

Lemma tag_pass_other_keys_witness :
  ∃ w' fd' t',
    addServiceAndEnvTags Sample.instance = Returned tt w'
    ∧ functions (service w') !! "hello" = Some fd'
    ∧ tags fd' = Some t'
    ∧ t' !! "team" = None.
Proof.
  destruct (tag_pass_other_keys Sample.instance "hello" Sample.hello)
    as (w' & fd' & t' & Hrun & Hfd' & Ht' & Hother & _); [reflexivity|].
  exists w', fd', t'. repeat split; try assumption.
  rewrite Hother; [reflexivity | discriminate | discriminate].
Defined.

(** X6. What the tag pass leaves under its two keys: the value that was
    there when that value is a non-empty string; otherwise the service name
    under ["service"], and the stage under ["env"]. *)
Theorem tag_pass_written_values (w : Serverless) (name : string)
    (fd : ExtendedFunctionDefinition) :
  functions (service w) !! name = Some fd →
  let old := default ∅ (tags fd) in
  ∃ w' fd' t',
    addServiceAndEnvTags w = Returned tt w'
    ∧ functions (service w') !! name = Some fd'
    ∧ tags fd' = Some t'
    ∧ t' !! "service"
      = (if truthy (old !! "service") then old !! "service"
         else Some (serviceName (service w)))
    ∧ t' !! "env"
      = (if truthy (old !! "env") then old !! "env" else Some (stage w)).
Proof.
  intros Hfd old.
  destruct (taggedFunction_lookup (serviceName (service w)) (stage w) fd "service")
    as (t' & Ht' & Hs).
  destruct (taggedFunction_lookup (serviceName (service w)) (stage w) fd "env")
    as (t'' & Ht'' & He).
  rewrite Ht' in Ht''. injection Ht'' as <-.
  rewrite decide_True in Hs by done.
  rewrite decide_False, decide_True in He by done.
  eexists _, _, t'. split; [apply run_addServiceAndEnvTags|].
  split; [rewrite lookup_withTaggedFunctions; cbn; by rewrite Hfd|].
  by split.
Qed.

Lemma tag_pass_written_values_witness :
  ∃ w' fd' t',
    addServiceAndEnvTags Sample.instance = Returned tt w'
    ∧ functions (service w') !! "hello" = Some fd'
    ∧ tags fd' = Some t'
    ∧ t' !! "service" = Some "custom"
    ∧ t' !! "env" = Some "dev".
Proof.
  apply (tag_pass_written_values Sample.instance "hello" Sample.hello).
  reflexivity.
Defined.

(** ** More on [debugLogHandlers] *)

Lemma length_diagnostics handlers :
  length (diagnostics handlers) = length (unsupported handlers).
Proof.
  unfold diagnostics, unsupported.
  induction handlers as [|h handlers IH]; [done|].
  cbn [omap list_omap]. rewrite filter_cons. unfold diagnostic at 1.
  destruct (decide (FunctionInfo.type h = UNSUPPORTED)) as [E|NE].
  - rewrite E. destruct (FunctionInfo.runtime h); cbn; by rewrite IH.
  - destruct (FunctionInfo.type h); try done; by destruct NE.
Qed.

(** X7. [debugLogHandlers] only logs: it leaves the service as it is, calls
    nothing, and adds one line for each entry classified [UNSUPPORTED] and
    none for any other entry; on an empty list, or a list without
    unsupported entries, it adds no line. *)
Theorem debugLogHandlers_line_count `{!Imports} (handlers : list FunctionInfo.t)
    (w : Serverless) :
  ∃ w' lines,
    debugLogHandlers handlers w = Returned tt w'
    ∧ service w' = service w
    ∧ stage w' = stage w
    ∧ trace w' = trace w ++ (Log <$> lines)
    ∧ length lines = length (unsupported handlers).
Proof.
  exists (extend (Log <$> diagnostics handlers) w), (diagnostics handlers).
  split; [apply run_debugLogHandlers|].
  do 3 (split; [reflexivity|]). apply length_diagnostics.
Qed.


(** ** What each phase calls *)

Lemma occurrences_app c tr1 tr2 :
  occurrences c (tr1 ++ tr2) = occurrences c tr1 + occurrences c tr2.
Proof. unfold occurrences. by rewrite filter_app, length_app. Qed.

Lemma occurrences_cons c e tr :
  occurrences c (e :: tr)
  = (if decide (callee e = c) then 1 else 0) + occurrences c tr.
Proof. unfold occurrences. rewrite filter_cons. by case_decide. Qed.

Lemma occurrences_nil c : occurrences c [] = 0.
Proof. reflexivity. Qed.

Lemma occurrences_Log c lines :
  c ≠ cliLog → occurrences c (Log <$> lines) = 0.
Proof.
  intros Hc. induction lines as [|l lines IH]; [done|].
  cbn [fmap list_fmap]. rewrite occurrences_cons, IH. cbn [callee].
  by rewrite decide_False by done.
Qed.

(** Counts the calls in a trace given as appended pieces. *)
Ltac count_calls :=
  repeat first [ rewrite occurrences_app | rewrite occurrences_cons
               | rewrite occurrences_nil
               | rewrite occurrences_Log by done ];
  cbn; try done.

(** X9. One run of the before-package phase reads the configuration once,
    calls [setEnvConfiguration], [findHandlers] and [enableTracing] once
    each, calls [applyLayers] once if "add layers" is on and not at all
    otherwise, and calls [forceExcludeDepsFromWebpack] at most once.  It
    never subscribes a forwarder, tags a function or redirects a handler. *)
Theorem before_package_calls `{!Imports} (w : Serverless) :
  ∃ w' events,
    beforePackageFunction w = Returned tt w'
    ∧ trace w' = trace w ++ events
    ∧ occurrences callGetConfig events = 1
    ∧ occurrences callSetEnvConfiguration events = 1
    ∧ occurrences callFindHandlers events = 1
    ∧ occurrences callEnableTracing events = 1
    ∧ occurrences callApplyLayers events
      = (if addLayers (getConfig (service w)) then 1 else 0)
    ∧ (occurrences callForceExcludeDepsFromWebpack events ≤ 1)%nat
    ∧ occurrences callAddCloudWatchForwarderSubscriptions events = 0
    ∧ occurrences callAddServiceAndEnvTags events = 0
    ∧ occurrences callRedirectHandlers events = 0.
Proof.
  eexists _, _. split; [apply run_beforePackageFunction|].
  split; [reflexivity|].
  unfold setupEvents, layerEvents.
  destruct (addLayers (getConfig (service w)));
    [destruct (hasWebpackPlugin _)|];
    repeat split; count_calls; compute; lia.
Qed.

(** X10. One run of the after-package phase reads the configuration once and
    calls [findHandlers] and [redirectHandlers] once each; it calls
    [addCloudWatchForwarderSubscriptions] once if the forwarder is a
    non-empty string and not at all otherwise, and enters the tag pass once
    if tags are enabled and not at all otherwise.  It never calls
    [setEnvConfiguration], [applyLayers], [forceExcludeDepsFromWebpack] or
    [enableTracing]. *)
Theorem after_package_calls `{!Imports} (w : Serverless) :
  let config := getConfig (service w) in
  ∃ w' events,
    afterPackageFunction w = Returned tt w'
    ∧ trace w' = trace w ++ events
    ∧ occurrences callGetConfig events = 1
    ∧ occurrences callFindHandlers events = 1
    ∧ occurrences callRedirectHandlers events = 1
    ∧ occurrences callAddCloudWatchForwarderSubscriptions events
      = (if truthy (forwarder config) then 1 else 0)
    ∧ occurrences callAddServiceAndEnvTags events
      = (if enableTags config then 1 else 0)
    ∧ occurrences callSetEnvConfiguration events = 0
    ∧ occurrences callApplyLayers events = 0
    ∧ occurrences callForceExcludeDepsFromWebpack events = 0
    ∧ occurrences callEnableTracing events = 0.
Proof.
  intros config. eexists _, _. split; [apply run_afterPackageFunction|].
  split; [reflexivity|]. fold config.
  unfold forwarderEvents, tagEvents, redirectEvents, FindHandlersOf.
  destruct (forwarder config) as [arn|];
    [destruct (truthy (Some arn))|];
    destruct (enableTags config);
    repeat split; count_calls.
Qed.

(** ** What each phase logs *)

(** X12. The before-package phase first logs that it is instrumenting.  With
    "add layers" on it then logs that it adds layers, followed by one
    diagnostic per function it could not classify; with "add layers" off it
    logs the skip line and nothing else. *)
Theorem before_package_log `{!Imports} (w : Serverless) :
  let config := getConfig (service w) in
  let handlers := findHandlers (setEnvConfiguration config (service w))
                    (provider_runtime (provider (setEnvConfiguration config (service w))))
                    (defaultNodeRuntime (nodeModuleType config)) in
  ∃ w' lines,
    beforePackageFunction w = Returned tt w'
    ∧ length lines = length (unsupported handlers)
    ∧ logged (trace w')
      = logged (trace w)
        ++ "Auto instrumenting functions with Datadog"
           :: (if addLayers config
               then "Adding Lambda Layers to functions" :: lines
               else ["Skipping adding Lambda Layers, make sure you are packaging them yourself"]).
Proof.
  intros config handlers.
  eexists _, (diagnostics handlers). split; [apply run_beforePackageFunction|].
  split; [apply length_diagnostics|].
  unfold set_service, extend. cbn [trace]. rewrite !logged_app.
  f_equal. unfold layerEvents. fold config.
  destruct (addLayers config); [|reflexivity].
  cbn [setupEvents logged app]. do 2 f_equal.
  rewrite logged_app, logged_Log.
  destruct (hasWebpackPlugin _); cbn; by rewrite ?app_nil_r.
Qed.

(** X13. The after-package phase logs the errors of the forwarder call, if
    the forwarder is a non-empty string, and then one line if tags are
    enabled; handler redirection logs nothing, and with no forwarder and tags
    off the phase logs nothing at all. *)
Theorem after_package_log `{!Imports} (w : Serverless) :
  let config := getConfig (service w) in
  ∃ w',
    afterPackageFunction w = Returned tt w'
    ∧ logged (trace w')
      = logged (trace w)
        ++ match forwarder config with
           | Some arn =>
               if truthy (Some arn)
               then (addCloudWatchForwarderSubscriptions (service w) arn).2
               else []
           | None => []
           end
        ++ (if enableTags config
            then ["Adding service and environment tags to functions"]
            else []).
Proof.
  intros config. eexists. split; [apply run_afterPackageFunction|].
  unfold set_service, extend. cbn [trace]. rewrite !logged_app. fold config.
  f_equal. unfold forwarderEvents, tagEvents, redirectEvents.
  destruct (forwarder config) as [arn|];
    [destruct (truthy (Some arn))|];
    destruct (enableTags config);
    cbn [logged app]; rewrite ?logged_Log, ?app_nil_r; reflexivity.
Qed.

(** ** How the phases compose the imported calls *)

(** X14. The service the before-package phase leaves: [setEnvConfiguration]
    is applied first, the functions are classified on its result, then, if
    "add layers" is on, [applyLayers] is applied to that result and
    [forceExcludeDepsFromWebpack] to the layered service if it has the
    webpack plugin, and [enableTracing] comes last.  The stage is left as it
    is. *)
Theorem before_package_service `{!Imports} (w : Serverless) :
  let config := getConfig (service w) in
  let s1 := setEnvConfiguration config (service w) in
  let handlers := findHandlers s1 (provider_runtime (provider s1))
                    (defaultNodeRuntime (nodeModuleType config)) in
  let layered := applyLayers (region (provider s1)) handlers s1 in
  ∃ w',
    beforePackageFunction w = Returned tt w'
    ∧ stage w' = stage w
    ∧ service w'
      = enableTracing
          (if addLayers config
           then if hasWebpackPlugin layered
                then forceExcludeDepsFromWebpack layered else layered
           else s1)
          (tracingMode config).
Proof.
  intros config s1 handlers layered. eexists.
  split; [apply run_beforePackageFunction|]. split; reflexivity.
Qed.

Lemma taggedFunction_has_both service_name stage_name fd :
  ∃ t, tags (taggedFunction service_name stage_name fd) = Some t
       ∧ is_Some (t !! "service") ∧ is_Some (t !! "env").
Proof.
  destruct (taggedFunction_lookup service_name stage_name fd "service")
    as (t & Ht & Hs).
  destruct (taggedFunction_lookup service_name stage_name fd "env")
    as (t' & Ht' & He).
  rewrite Ht in Ht'. injection Ht' as <-.
  rewrite decide_True in Hs by done.
  rewrite decide_False, decide_True in He by done.
  exists t. split; [done|]. rewrite Hs, He.
  destruct (truthy (default ∅ (tags fd) !! TagKeys.Service)) eqn:Es,
           (truthy (default ∅ (tags fd) !! TagKeys.Env)) eqn:Ee;
    split; eauto using truthy_is_Some.
Qed.

(** X15. With tags enabled, [redirectHandlers] is given a service in which
    every function already carries a ["service"] and an ["env"] tag: the
    functions are the tagged versions of the ones the forwarder pass left,
    and they are classified again after the tag pass. *)
Theorem redirect_sees_tagged_functions `{!Imports} (w : Serverless) :
  let config := getConfig (service w) in
  let s1 := forwarderService config (service w) in
  enableTags config = true →
  ∃ w' s2,
    afterPackageFunction w = Returned tt w'
    ∧ service w'
      = redirectHandlers s2
          (findHandlers s2 (provider_runtime (provider s2))
             (defaultNodeRuntime (nodeModuleType config)))
          (addLayers config)
    ∧ functions s2 = taggedFunction (serviceName s1) (stage w) <$> functions s1
    ∧ ∀ name fd, functions s2 !! name = Some fd →
        ∃ t, tags fd = Some t ∧ is_Some (t !! "service") ∧ is_Some (t !! "env").
Proof.
  intros config s1 Hon.
  eexists _, (subscribedAndTagged w). split; [apply run_afterPackageFunction|].
  split; [reflexivity|].
  assert (functions (subscribedAndTagged w)
          = taggedFunction (serviceName s1) (stage w) <$> functions s1) as Hfs.
  { unfold subscribedAndTagged, tagService. fold config. by rewrite Hon. }
  split; [exact Hfs|].
  intros name fd. rewrite Hfs, lookup_fmap.
  destruct (functions s1 !! name) as [fd0|]; [|done].
  intros [= <-]. apply taggedFunction_has_both.
Qed.

Lemma redirect_sees_tagged_functions_witness :
  let Imp := Sample.imports Sample.everything in
  ∃ w' s2,
    afterPackageFunction Sample.instance = Returned tt w'
    ∧ service w' = s2
    ∧ ∀ name fd, functions s2 !! name = Some fd →
        ∃ t, tags fd = Some t ∧ is_Some (t !! "service") ∧ is_Some (t !! "env").
Proof.
  intros Imp.
  destruct (@redirect_sees_tagged_functions Imp Sample.instance)
    as (w' & s2 & Hrun & Hservice & _ & Htagged); [reflexivity|].
  exists w', s2. split; [exact Hrun|]. split; [exact Hservice|]. exact Htagged.
Defined.

(** X16. The before-package phase reads neither the stage nor what was
    logged or called before: started from the same service with another
    stage and another trace, it leaves the same service and adds the same
    events. *)
Theorem before_package_ignores_stage_and_trace `{!Imports} (w : Serverless)
    (stage' : string) (trace' : list Event) :
  ∃ w' events,
    beforePackageFunction w = Returned tt w'
    ∧ trace w' = trace w ++ events
    ∧ beforePackageFunction (mkServerless (service w) stage' trace')
      = Returned tt (mkServerless (service w') stage' (trace' ++ events)).
Proof.
  eexists _, _. split; [apply run_beforePackageFunction|].
  split; [reflexivity|]. by rewrite run_beforePackageFunction.
Qed.

(** ** The hook table, by prefix *)

Lemma hook_of_elem table event entry :
  hook_of table event = Some entry → (event, entry) ∈ table.
Proof.
  induction table as [|[key e] table IH]; [done|]. cbn.
  destruct (String.eqb_spec key event) as [->|_].
  - intros [= ->]. apply elem_of_cons; by left.
  - intros Hin. apply elem_of_cons; right. by apply IH.
Qed.

(** X17. A hook registered on a ["before:"] event always runs the
    before-package phase, and a hook that runs the after-package phase is
    always registered on an ["after:"] event.  (The converse fails: two
    ["after:"] events run the before-package phase.) *)
Theorem hooks_by_prefix (event : string) (entry : PhaseEntry) :
  hook_of hooks event = Some entry →
  (String.prefix "before:" event = true → entry = beforePackage)
  ∧ (entry = afterPackage → String.prefix "after:" event = true).
Proof.
  intros Hin%hook_of_elem. unfold hooks in Hin.
  repeat (apply elem_of_cons in Hin as [[= -> ->]|Hin]; [by split|]).
  by apply elem_of_nil in Hin.
Qed.

Lemma hooks_by_prefix_witness :
  hook_of hooks "before:offline:start:init" = Some beforePackage
  ∧ String.prefix "before:" "before:offline:start:init" = true
  ∧ ∀ entry, hook_of hooks "before:offline:start:init" = Some entry →
             entry = beforePackage.
Proof.
  split; [reflexivity|]. split; [reflexivity|].
  intros entry Hentry.
  apply (hooks_by_prefix "before:offline:start:init" entry Hentry).
  reflexivity.
Defined.

(** ** The stage *)


